(** * mkvCut: a shallow embedding of [mkvCut.py]

    The script trims a segment out of a media file by calling ffmpeg in
    stream-copy mode.  This development embeds its functions
    ([parse_time], [format_time], [cut_video], [main]) and proves the
    properties stated for them.

    Conventions of the embedding.
    - A Python [str] is a [string]; a character is its code point, and the
      model covers the code points below 256 (Latin-1).  The character
      classes of [str.strip], [str.isdigit], [str.lower] and [int] are the
      ones CPython uses on that range.
    - A Python [int] is a [Z].
    - An exception is a value of a sum type; console output, console input
      and the ffmpeg process are events of a trace. *)

From Stdlib Require Import ZArith NArith Arith Lia Bool List FinFun.
From Stdlib Require Import Ascii String.
From Stdlib Require Import DecimalString DecimalNat DecimalFacts.
From Stdlib Require Import QArith Qround Qabs Lqa.
Import ListNotations.

Open Scope string_scope.
Open Scope Z_scope.

(* ================================================================= *)
(** ** Characters *)

Module Char.

(** The code point of a character. *)
Definition code (c : ascii) : N := N_of_ascii c.

(** [str.isspace] on one character: TAB..CR, FS..US, SPACE, NEL, NBSP. *)
Definition isspace (c : ascii) : bool :=
  let n := code c in
  ((9 <=? n) && (n <=? 13) || (28 <=? n) && (n <=? 32)
   || (n =? 133) || (n =? 160))%N.

(** [str.isdecimal] on one character: the ASCII digits. *)
Definition isdecimal (c : ascii) : bool :=
  let n := code c in ((48 <=? n) && (n <=? 57))%N.

(** [str.isdigit] on one character: the decimal digits and the
    superscripts U+00B2, U+00B3 and U+00B9, which have a digit value but
    are no decimal digits. *)
Definition isdigit (c : ascii) : bool :=
  let n := code c in
  (isdecimal c || (n =? 178) || (n =? 179) || (n =? 185))%N.

(** The value of a decimal digit. *)
Definition digit_value (c : ascii) : Z := Z.of_N (code c) - 48.

Definition is_sign (c : ascii) : bool :=
  let n := code c in ((n =? 43) || (n =? 45))%N.

Definition is_underscore (c : ascii) : bool := (code c =? 95)%N.

(** [str.lower] on one character: A..Z and the Latin-1 capitals
    U+00C0..U+00DE except the multiplication sign U+00D7. *)
Definition lower (c : ascii) : ascii :=
  let n := code c in
  if ((65 <=? n) && (n <=? 90)
      || (192 <=? n) && (n <=? 222) && negb (n =? 215))%N
  then ascii_of_N (n + 32) else c.

End Char.

(* ================================================================= *)
(** ** The string methods the script calls *)

Module Str.

Fixpoint forallb (p : ascii -> bool) (s : string) : bool :=
  match s with
  | EmptyString => true
  | String c r => p c && forallb p r
  end.

Fixpoint lstrip (s : string) : string :=
  match s with
  | EmptyString => EmptyString
  | String c r => if Char.isspace c then lstrip r else s
  end.

Fixpoint rstrip (s : string) : string :=
  match s with
  | EmptyString => EmptyString
  | String c r =>
      match rstrip r with
      | EmptyString => if Char.isspace c then EmptyString else String c EmptyString
      | r' => String c r'
      end
  end.

(** [s.strip()] *)
Definition strip (s : string) : string := lstrip (rstrip s).

(** [s.isdigit()]: every character is a digit and there is at least one. *)
Definition isdigit (s : string) : bool :=
  match s with
  | EmptyString => false
  | _ => forallb Char.isdigit s
  end.

(** [s.lower()] *)
Fixpoint lower (s : string) : string :=
  match s with
  | EmptyString => EmptyString
  | String c r => String (Char.lower c) (lower r)
  end.

Fixpoint zeros (n : nat) : string :=
  match n with
  | O => EmptyString
  | S k => String "0" (zeros k)
  end.

(** [s.zfill(width)]: zeros on the left, after a leading sign. *)
Definition zfill (width : nat) (s : string) : string :=
  let fill := (width - length s)%nat in
  match s with
  | String c r => if Char.is_sign c then String c (zeros fill ++ r)
                  else zeros fill ++ s
  | EmptyString => zeros fill
  end.

(** A slice bound, as Python normalises it: a negative index counts from
    the end, and the result is clamped to [0, len]. *)
Definition bound (len i : Z) : Z :=
  let j := if i <? 0 then i + len else i in
  Z.max 0 (Z.min len j).

(** [s[lo:hi]] with step 1; [None] is an omitted bound. *)
Definition slice (lo hi : option Z) (s : string) : string :=
  let len := Z.of_nat (length s) in
  let a := match lo with Some i => bound len i | None => 0 end in
  let b := match hi with Some i => bound len i | None => len end in
  substring (Z.to_nat a) (Z.to_nat (b - a)) s.

(** [sep.join(parts)] *)
Fixpoint join (sep : string) (parts : list string) : string :=
  match parts with
  | [] => EmptyString
  | [p] => p
  | p :: rest => p ++ sep ++ join sep rest
  end.

(** [str(n)] for a natural number. *)
Definition of_nat (n : nat) : string :=
  NilEmpty.string_of_uint (Nat.to_uint n).

End Str.

(* ================================================================= *)
(** ** Exceptions *)

(** The [ValueError]s that [parse_time] can raise.
    - [NonDigit]: line 29, "Only digits expected";
    - [BadLength]: line 32, "String length should be from 1 to 6 digits";
    - [InvalidLiteral lit]: raised by [int(lit)] itself. *)
Inductive ValueError : Type :=
| NonDigit
| BadLength
| InvalidLiteral (lit : string).

Inductive result (A : Type) : Type :=
| Ok (v : A)
| Raise (e : ValueError).
Arguments Ok {A} v.
Arguments Raise {A} e.

(** [str(e)].  [int] quotes the literal with [repr]; the literals
    [parse_time] passes to it are made of characters that passed
    [str.isdigit], which [repr] leaves as they are between two quotes. *)
Definition message (e : ValueError) : string :=
  match e with
  | NonDigit => "Invalid time format: Only digits expected in HHMMSS form."
  | BadLength =>
      "Invalid time format: String length should be from 1 to 6 digits (HHMMSS, MMSS, SS)."
  | InvalidLiteral lit =>
      "invalid literal for int() with base 10: '" ++ lit ++ "'"
  end.

(* ================================================================= *)
(** ** [int(str)] *)

(** The digits of a decimal literal, most significant first.  Single
    underscores may separate digits; [sep] is true when the previous
    character was no digit (at the start or after an underscore), where
    neither an underscore nor the end of the literal is allowed. *)
Fixpoint int_digits (s : string) (acc : Z) (sep : bool) : option Z :=
  match s with
  | EmptyString => if sep then None else Some acc
  | String c r =>
      if Char.isdecimal c then int_digits r (10 * acc + Char.digit_value c) false
      else if Char.is_underscore c then
             if sep then None else int_digits r acc true
      else None
  end.

(** The whitespace [int] skips around a literal: TAB..CR, SPACE, NEL and
    NBSP.  Unlike [str.strip] it keeps the separators FS..US. *)
Definition int_space (c : ascii) : bool :=
  let n := Char.code c in
  ((9 <=? n) && (n <=? 13) || (n =? 32) || (n =? 133) || (n =? 160))%N.

Fixpoint int_lstrip (s : string) : string :=
  match s with
  | EmptyString => EmptyString
  | String c r => if int_space c then int_lstrip r else s
  end.

Fixpoint int_rstrip (s : string) : string :=
  match s with
  | EmptyString => EmptyString
  | String c r =>
      match int_rstrip r with
      | EmptyString => if int_space c then EmptyString else String c EmptyString
      | r' => String c r'
      end
  end.

(** [int(s)] in base 10: surrounding whitespace, an optional sign, digits. *)
Definition py_int (s : string) : result Z :=
  let body :=
    match int_lstrip (int_rstrip s) with
    | String c r =>
        if (Char.code c =? 45)%N then option_map Z.opp (int_digits r 0 true)
        else if (Char.code c =? 43)%N then int_digits r 0 true
        else int_digits (String c r) 0 true
    | EmptyString => None
    end in
  match body with
  | Some v => Ok v
  | None => Raise (InvalidLiteral s)
  end.

(* ================================================================= *)
(** ** [parse_time] (lines 25-38) *)

Definition parse_time (time_str : string) : result Z :=
  let clean := Str.strip time_str in
  if negb (Str.isdigit clean) then Raise NonDigit
  else
    let length := Z.of_nat (String.length clean) in
    if (length >? 6) || (length <? 1) then Raise BadLength
    else
      let clean_padded := Str.zfill 6 clean in
      match (if length >? 4 then py_int (Str.slice None (Some (-4)) clean_padded)
             else Ok 0) with
      | Raise e => Raise e
      | Ok hours =>
          match (if length >? 2
                 then py_int (Str.slice (Some (-4)) (Some (-2)) clean_padded)
                 else Ok 0) with
          | Raise e => Raise e
          | Ok minutes =>
              match py_int (Str.slice (Some (-2)) None clean_padded) with
              | Raise e => Raise e
              | Ok seconds => Ok (hours * 3600 + minutes * 60 + seconds)
              end
          end
      end.

(* ================================================================= *)
(** ** Numbers and their formatting *)

(** The argument of [format_time] is an [int] or a [float].  A [float] is
    carried by its exact rational value, which covers the finite floats
    (no infinity, no NaN) and is what the code computes only on a range:
    for [0 <= q < 2^53] the operations [format_time] applies ([//] and [%]
    by an integer constant, [int], and the correctly rounded ['.3f']
    conversion) are exact on binary64.  Above that range [//] rounds, and
    on negative floats [%] rounds; every statement about a [float] below
    is made inside the range ([in_range]). *)
Inductive number : Type :=
| PyInt (z : Z)
| PyFloat (q : Q).

(** [x // d] for an integer constant [d]. *)
Definition floordiv (x : number) (d : Z) : number :=
  match x with
  | PyInt z => PyInt (z / d)
  | PyFloat q => PyFloat (inject_Z (Qfloor (q / inject_Z d)))
  end.

(** [x % d] for an integer constant [d]. *)
Definition pymod (x : number) (d : Z) : number :=
  match x with
  | PyInt z => PyInt (z mod d)
  | PyFloat q =>
      PyFloat (q - inject_Z d * inject_Z (Qfloor (q / inject_Z d)))%Q
  end.

(** [int(x)]: a float is truncated towards zero. *)
Definition to_int (x : number) : Z :=
  match x with
  | PyInt z => z
  | PyFloat q => if Qnum q <? 0 then Qceiling q else Qfloor q
  end.

(** [float(x)] *)
Definition to_float (x : number) : Q :=
  match x with
  | PyInt z => inject_Z z
  | PyFloat q => q
  end.

(** Rounding to the nearest integer, ties to even. *)
Definition round_half_even (q : Q) : Z :=
  let f := Qfloor q in
  match Qcompare (q - inject_Z f) (1 # 2) with
  | Lt => f
  | Gt => f + 1
  | Eq => if Z.even f then f else f + 1
  end.

(** A sign, then zeros up to [width], then the digits: the ['0'] flag of
    the format mini-language. *)
Definition zero_pad (width : nat) (sign body : string) : string :=
  sign ++ Str.zeros (width - length sign - length body) ++ body.

(** [format(z, '02d')] *)
Definition format_02d (z : Z) : string :=
  zero_pad 2 (if z <? 0 then "-" else "") (Str.of_nat (Z.abs_nat z)).

(** The number of thousandths that ['.3f'] prints for [|q|]. *)
Definition thousandths (q : Q) : Z := round_half_even (Qabs q * 1000).

(** [format(q, '.3f')] without its sign. *)
Definition fixed3 (q : Q) : string :=
  let n := thousandths q in
  Str.of_nat (Z.to_nat (n / 1000)) ++ "."
  ++ zero_pad 3 "" (Str.of_nat (Z.to_nat (n mod 1000))).

(** [format(x, '06.3f')]; an [int] is converted to [float] first. *)
Definition format_06_3f (x : number) : string :=
  let q := to_float x in
  zero_pad 6 (if Qnum q <? 0 then "-" else "") (fixed3 q).

(* ================================================================= *)
(** ** [format_time] (lines 41-46) *)

Definition format_time (seconds : number) : string :=
  let hours := to_int (floordiv seconds 3600) in
  let minutes := to_int (floordiv (pymod seconds 3600) 60) in
  let secs := pymod seconds 60 in
  format_02d hours ++ ":" ++ format_02d minutes ++ ":" ++ format_06_3f secs.

(* ================================================================= *)
(** ** The environment of a run *)

Record FileStat : Type := { is_file : bool; st_size : Z }.

(** What [subprocess.run(cmd, check=True, capture_output=True, text=True)]
    can do. *)
Inductive Outcome : Type :=
| Completed                                (* exit status 0 *)
| CalledProcessError (stderr : string)     (* non-zero exit status *)
| FileNotFoundError                        (* no such executable *)
| OtherException (name : string).          (* any other exception *)

Record World : Type := {
  argv : list string;                      (* sys.argv *)
  base_path : string;                      (* str(get_base_path()) *)
  sep : string;                            (* the path separator *)
  path_str : string -> string;             (* str(Path(s)) *)
  path_stem : string -> string;            (* Path(s).stem *)
  path_suffix : string -> string;          (* Path(s).suffix *)
  files : list (string * FileStat);        (* the files that exist *)
  stdin : list string;                     (* the lines typed by the user *)
  run_tool : list string -> Outcome;       (* the ffmpeg process *)
  stat_after : string -> option Z          (* st_size once ffmpeg has run *)
}.

Definition get_base_path (w : World) : string := base_path w.

(** [dir / name] for a relative, one-component [name]. *)
Definition joinpath (w : World) (dir name : string) : string :=
  dir ++ sep w ++ name.

Fixpoint lookup (p : string) (fs : list (string * FileStat)) : option FileStat :=
  match fs with
  | [] => None
  | (q, st) :: rest => if String.eqb p q then Some st else lookup p rest
  end.

(** [Path(p).exists()] *)
Definition path_exists (w : World) (p : string) : bool :=
  match lookup p (files w) with Some _ => true | None => false end.

(** [Path(p).is_file()] *)
Definition path_is_file (w : World) (p : string) : bool :=
  match lookup p (files w) with Some st => is_file st | None => false end.

(* ================================================================= *)
(** ** Programs: console, process and exit *)

Inductive event : Type :=
| Print (text : string)                    (* print(text) *)
| PrintMB (label : string) (bytes : Z)     (* print(f"{label}{bytes / (1024*1024):.2f} MB") *)
| Input (prompt : string) (line : option string)
                                           (* input(prompt); [None] at end of input *)
| Run (cmd : list string).                 (* subprocess.run(cmd, ...) *)

Inductive exit_status : Type :=
| Exit (code : Z)                          (* sys.exit(code), or the end of the script: 0 *)
| Uncaught (exn : string)                  (* an exception nobody catches *)
| Hang.                                    (* a loop that does not end *)

(** The exit code the operating system sees.  An uncaught exception ends
    the interpreter with code 1, except [KeyboardInterrupt], on which the
    interpreter ends by the interrupt signal and gives no code of its
    own. *)
Definition exit_code (s : exit_status) : option Z :=
  match s with
  | Exit c => Some c
  | Uncaught exn =>
      if String.eqb exn "KeyboardInterrupt" then None else Some 1
  | Hang => None
  end.

Inductive step (A : Type) : Type :=
| Done (a : A) (rest : list string)        (* a value, and the input left *)
| Stop (s : exit_status).
Arguments Done {A} a rest.
Arguments Stop {A} s.

(** A program reads the lines typed by the user and gives the events it
    produced, in order, and either a value or the way it ended. *)
Definition M (A : Type) : Type := list string -> list event * step A.

Definition ret {A} (a : A) : M A := fun i => ([], Done a i).

Definition bind {A B} (m : M A) (f : A -> M B) : M B :=
  fun i =>
    match m i with
    | (t1, Stop s) => (t1, Stop s)
    | (t1, Done a i') =>
        match f a i' with (t2, r) => ((t1 ++ t2)%list, r) end
    end.

Notation "x <- m ;; k" := (bind m (fun x => k))
  (at level 61, m at next level, right associativity).
Notation "m ;;; k" := (bind m (fun _ => k))
  (at level 61, right associativity).

Definition print (text : string) : M unit := fun i => ([Print text], Done tt i).

Definition print_mb (label : string) (bytes : Z) : M unit :=
  fun i => ([PrintMB label bytes], Done tt i).

Definition input (prompt : string) : M string :=
  fun i =>
    match i with
    | [] => ([Input prompt None], Stop (Uncaught "EOFError"))
    | l :: rest => ([Input prompt (Some l)], Done l rest)
    end.

Definition sys_exit {A} (code : Z) : M A := fun _ => ([], Stop (Exit code)).

Definition raise {A} (exn : string) : M A := fun _ => ([], Stop (Uncaught exn)).

Definition hang {A} : M A := fun _ => ([], Stop Hang).

(** Events in front of what a program produced. *)
Definition after {A} (evs : list event) (r : list event * step A)
  : list event * step A :=
  ((evs ++ fst r)%list, snd r).

Definition nl : string := String "010"%char EmptyString.

(* ================================================================= *)
(** ** [cut_video] (lines 49-94) *)

(** The executable: [ffmpeg.exe] next to the program if it exists, else the
    one on the system path (lines 57-62). *)
Definition ffmpeg_exe (w : World) : string :=
  let local_ffmpeg := joinpath w (get_base_path w) "ffmpeg.exe" in
  if path_exists w local_ffmpeg then local_ffmpeg else "ffmpeg".

(** The command line (lines 51 and 64-74). *)
Definition ffmpeg_cmd (w : World) (input_path : string) (start_time end_time : Z)
    (output_path : string) : list string :=
  let duration := end_time - start_time in
  [ ffmpeg_exe w;
    "-ss"; format_time (PyInt start_time);
    "-i"; input_path;
    "-t"; format_time (PyInt duration);
    "-c"; "copy";
    "-map"; "0";
    "-avoid_negative_ts"; "make_zero";
    output_path;
    "-y" ].

Definition cut_video (w : World) (input_path : string) (start_time end_time : Z)
    (output_path : string) : M bool :=
  let cmd := ffmpeg_cmd w input_path start_time end_time output_path in
  print (nl ++ "Executing ffmpeg command (fast copy mode, no re-encoding)...") ;;;
  print ("Command: " ++ Str.join " " cmd ++ nl) ;;;
  fun i =>
    after [Run cmd]
      (match run_tool w cmd with
       | Completed =>
           (print "Video cutting completed!" ;;; ret true) i
       | CalledProcessError stderr =>
           (print "Error: ffmpeg execution failed" ;;;
            print ("Error message: " ++ stderr) ;;;
            ret false) i
       | FileNotFoundError =>
           (print "Error: ffmpeg not found. Please ensure ffmpeg is installed and added to system PATH." ;;;
            ret false) i
       | OtherException name => raise name i
       end).

(* ================================================================= *)
(** ** [main] (lines 97-182) *)

Definition start_prompt : string := "Please enter start time (format: HHMMSS): ".
Definition end_prompt : string := "Please enter end time (format: HHMMSS): ".
Definition confirm_prompt : string := nl ++ "Confirm cutting? (Y/n): ".
Definition pause_prompt : string := nl ++ "Press Enter to exit...".
Definition negative_start : string := "Error: Start time cannot be negative".

(** The loop of lines 123-132.  Each turn reads one line, so the loop is
    a recursion on the lines still to read; it gives the accepted text
    ([start_input]) and its value ([start_time]). *)
Fixpoint start_loop (lines : list string) : list event * step (string * Z) :=
  match lines with
  | [] => ([Input start_prompt None], Stop (Uncaught "EOFError"))
  | l :: rest =>
      let start_input := Str.strip l in
      after [Input start_prompt (Some l)]
        match parse_time start_input with
        | Ok start_time =>
            if start_time <? 0
            then after [Print negative_start] (start_loop rest)
            else ([], Done (start_input, start_time) rest)
        | Raise e =>
            after [Print ("Error: Invalid time format - " ++ message e)]
              (start_loop rest)
        end
  end.

(** The loop of lines 136-145. *)
Fixpoint end_loop (start_time : Z) (lines : list string)
  : list event * step (string * Z) :=
  match lines with
  | [] => ([Input end_prompt None], Stop (Uncaught "EOFError"))
  | l :: rest =>
      let end_input := Str.strip l in
      after [Input end_prompt (Some l)]
        match parse_time end_input with
        | Ok end_time =>
            if end_time <=? start_time
            then after [Print "Error: End time must be greater than start time"]
                   (end_loop start_time rest)
            else ([], Done (end_input, end_time) rest)
        | Raise e =>
            after [Print ("Error: Invalid time format - " ++ message e)]
              (end_loop start_time rest)
        end
  end.

(** The file names of lines 158 and 163: without a counter, and with one. *)
Definition output_name (stem start_input end_input suffix : string)
    (counter : option nat) : string :=
  match counter with
  | None => stem ++ "_" ++ start_input ++ "_" ++ end_input ++ suffix
  | Some k =>
      stem ++ "_" ++ start_input ++ "_" ++ end_input ++ "_" ++ Str.of_nat k ++ suffix
  end.

(** The loop of lines 162-164, with a bound on the number of turns;
    [None] when the bound is reached. *)
Fixpoint output_loop (w : World) (fuel : nat) (name : nat -> string)
    (output_path : string) (counter : nat) : option string :=
  match fuel with
  | O => None
  | S fuel' =>
      if path_exists w output_path
      then output_loop w fuel' name (joinpath w (get_base_path w) (name counter))
             (S counter)
      else Some output_path
  end.

(** Lines 153-164.  One turn more than there are files is enough
    ([resolve_output_total]). *)
Definition resolve_output (w : World) (stem start_input end_input suffix : string)
  : option string :=
  let script_dir := get_base_path w in
  let output_path :=
    joinpath w script_dir (output_name stem start_input end_input suffix None) in
  output_loop w (S (List.length (files w)))
    (fun counter => output_name stem start_input end_input suffix (Some counter))
    output_path 1.

(** [confirm not in ('', 'y')] after [.strip().lower()] (lines 169-170). *)
Definition confirmed (line : string) : bool :=
  let confirm := Str.lower (Str.strip line) in
  String.eqb confirm "" || String.eqb confirm "y".

(** What the first part of [main] hands to the second. *)
Record Job : Type := {
  input_path : string;
  start_input : string;
  start_time : Z;
  end_input : string;
  end_time : Z;
  output_path : string
}.

(** Lines 98-166: the argument, the file, the two times, the output path. *)
Definition gather (w : World) : M Job :=
  if (List.length (argv w) <? 2)%nat then
    print "Please drag a video file onto this script, or provide the video file path via command line." ;;;
    print "Usage: python python.py <video_file>" ;;;
    input pause_prompt ;;;
    sys_exit 1
  else
    let input_path := nth 1 (argv w) "" in
    if negb (path_exists w input_path) then
      print ("Error: File does not exist: " ++ path_str w input_path) ;;;
      input pause_prompt ;;;
      sys_exit 1
    else if negb (path_is_file w input_path) then
      print ("Error: Not a valid file: " ++ path_str w input_path) ;;;
      input pause_prompt ;;;
      sys_exit 1
    else
      print ("Input file: " ++ path_str w input_path) ;;;
      match lookup input_path (files w) with
      | Some st => print_mb "File size: " (st_size st)
      | None => raise "FileNotFoundError"
      end ;;;
      s <- start_loop ;;
      let '(start_input, start_time) := s in
      e <- end_loop start_time ;;
      let '(end_input, end_time) := e in
      print (nl ++ "Start time: " ++ format_time (PyInt start_time)) ;;;
      print ("End time: " ++ format_time (PyInt end_time)) ;;;
      print ("Duration: " ++ format_time (PyInt (end_time - start_time))) ;;;
      match resolve_output w (path_stem w input_path) start_input end_input
              (path_suffix w input_path) with
      | None => hang
      | Some output_path =>
          print ("Output file: " ++ output_path ++ nl) ;;;
          ret {| input_path := path_str w input_path;
                 start_input := start_input; start_time := start_time;
                 end_input := end_input; end_time := end_time;
                 output_path := output_path |}
      end.

(** Lines 168-182: the confirmation, the cut, the report, the pause. *)
Definition run_job (w : World) (job : Job) : M unit :=
  confirm <- input confirm_prompt ;;
  if negb (confirmed confirm) then
    print "Operation cancelled." ;;;
    sys_exit 0
  else
    success <- cut_video w (input_path job) (start_time job) (end_time job)
                 (output_path job) ;;
    (if success : bool then
       print (nl ++ "Output file saved to: " ++ output_path job) ;;;
       match stat_after w (output_path job) with
       | Some size => print_mb "Output file size: " size
       | None => raise "FileNotFoundError"
       end
     else ret tt) ;;;
    input pause_prompt ;;;
    ret tt.

Definition main_body (w : World) : M unit :=
  job <- gather w ;;
  run_job w job.

(** A run of the script: its events and the way it ends. *)
Definition main (w : World) : list event * exit_status :=
  match main_body w (stdin w) with
  | (t, Done _ _) => (t, Exit 0)
  | (t, Stop s) => (t, s)
  end.

Definition trace (w : World) : list event := fst (main w).
Definition status (w : World) : exit_status := snd (main w).

(** A world to run examples in: POSIX paths, one video and an earlier cut
    of it in the program's directory. *)
Definition demo (lines : list string) (tool : Outcome) : World :=
  {| argv := ["mkvCut.py"; "/videos/clip.mp4"];
     base_path := "/opt/mkvcut";
     sep := "/";
     path_str := fun s => s;
     path_stem := fun _ => "clip";
     path_suffix := fun _ => ".mp4";
     files := [("/videos/clip.mp4", {| is_file := true; st_size := 1048576 |});
               ("/opt/mkvcut/clip_010000_020000.mp4",
                {| is_file := true; st_size := 524288 |})];
     stdin := lines;
     run_tool := fun _ => tool;
     stat_after := fun _ => Some 4096 |}.

(* ================================================================= *)
(** ** The specification of the time code *)

Module Spec.

(** The value of a string of decimal digits. *)
Fixpoint decimal (s : string) (acc : Z) : Z :=
  match s with
  | EmptyString => acc
  | String c r => decimal r (10 * acc + Char.digit_value c)
  end.

(** The digit string left-padded with zeros to six characters. *)
Definition pad6 (digits : string) : string :=
  Str.zeros (6 - length digits) ++ digits.

(** The two-digit group at positions [i, i+2). *)
Definition group (i : nat) (padded : string) : Z :=
  decimal (substring i 2 padded) 0.

Definition hours (digits : string) : Z := group 0 (pad6 digits).
Definition minutes (digits : string) : Z := group 2 (pad6 digits).
Definition seconds (digits : string) : Z := group 4 (pad6 digits).

Definition total_seconds (digits : string) : Z :=
  hours digits * 3600 + minutes digits * 60 + seconds digits.

End Spec.

(* ================================================================= *)
(** ** Auxiliary definitions of the proofs *)

Definition pair_string (a b : ascii) : string := String a (String b "").


(** Three results in sequence, as lines 35-38 evaluate them. *)
Definition hms (h m s : result Z) : result Z :=
  match h with
  | Raise e => Raise e
  | Ok hours =>
      match m with
      | Raise e => Raise e
      | Ok minutes =>
          match s with
          | Raise e => Raise e
          | Ok seconds => Ok (hours * 3600 + minutes * 60 + seconds)
          end
      end
  end.


(** The one-character string SUPERSCRIPT TWO (U+00B2). *)
Definition superscript_two : string := String (ascii_of_N 178) "".

(** The paths the loop of lines 162-164 tries, in order: number 0 is the
    name without a counter, number [k] the name with counter [k]. *)
Definition candidate (w : World) (stem start_input end_input suffix : string)
    (k : nat) : string :=
  joinpath w (get_base_path w)
    (output_name stem start_input end_input suffix
       (match k with O => None | S _ => Some k end)).

(** The paths [output_loop] looks at when started at [output_path] with
    [counter]. *)
Definition tried (w : World) (name : nat -> string) (output_path : string)
    (counter : nat) (j : nat) : string :=
  match j with
  | O => output_path
  | S j' => joinpath w (get_base_path w) (name (counter + j')%nat)
  end.

(** Every event a program produces satisfies [P], whatever is typed. *)
Definition emits {A} (P : event -> Prop) (m : M A) : Prop :=
  forall i, Forall P (fst (m i)).

(** The events of [gather]: no process is run, the confirmation is not
    asked for, and the complaint about a negative start is not printed. *)
Definition gather_event (e : event) : Prop :=
  match e with
  | Run _ => False
  | Input prompt _ => prompt <> confirm_prompt
  | Print text => text <> negative_start
  | PrintMB _ _ => True
  end.

(** The way a program ends: reaching the end of the script is exit 0. *)
Definition final {A} (r : step A) : exit_status :=
  match r with
  | Done _ _ => Exit 0
  | Stop s => s
  end.





(** The checks of lines 99-116: an argument is given, and it names a
    regular file that exists. *)
Definition valid_invocation (w : World) : bool :=
  (2 <=? List.length (argv w))%nat
  && path_exists w (nth 1 (argv w) "")
  && path_is_file w (nth 1 (argv w) "").

(** A time code whose minutes and seconds are below 60. *)
Definition canonical (digits : string) : Prop :=
  Spec.minutes digits < 60 /\ Spec.seconds digits < 60.

(** One of the ASCII digits 0 to 9. *)
Definition ascii_digit (c : ascii) : bool :=
  ((48 <=? Char.code c) && (Char.code c <=? 57))%N.

(* ================================================================= *)
(** * Theorems *)

(** ** Runs of the functions on concrete inputs *)

Example parse_time_45 : parse_time "45" = Ok 45.
Proof. reflexivity. Qed.

Example parse_time_100 : parse_time "100" = Ok 60.
Proof. reflexivity. Qed.

Example parse_time_013245 : parse_time " 013245 " = Ok 5565.
Proof. reflexivity. Qed.

Example parse_time_empty : parse_time "" = Raise NonDigit.
Proof. reflexivity. Qed.

Example format_time_5565 : format_time (PyInt 5565) = "01:32:45.000".
Proof. reflexivity. Qed.

Example format_time_100h : format_time (PyInt 360000) = "100:00:00.000".
Proof. reflexivity. Qed.

Example format_time_half : format_time (PyFloat (91 # 2)) = "00:00:45.500".
Proof. reflexivity. Qed.

(* ================================================================= *)
(** ** Facts about characters *)

Ltac char_cases c :=
  destruct c as [[] [] [] [] [] [] [] []]; vm_compute; try reflexivity;
  try discriminate; try (intros; discriminate); try (split; discriminate).

Lemma isdecimal_isdigit c : Char.isdecimal c = true -> Char.isdigit c = true.
Proof. unfold Char.isdigit. intros ->. reflexivity. Qed.

Lemma isdigit_not_space c : Char.isdigit c = true -> Char.isspace c = false.
Proof. char_cases c. Qed.

Lemma isdigit_not_int_space c : Char.isdigit c = true -> int_space c = false.
Proof. char_cases c. Qed.

Lemma isdigit_not_sign c : Char.isdigit c = true -> Char.is_sign c = false.
Proof. char_cases c. Qed.

Lemma isdigit_not_minus c : Char.isdigit c = true -> (Char.code c =? 45)%N = false.
Proof. char_cases c. Qed.

Lemma isdigit_not_plus c : Char.isdigit c = true -> (Char.code c =? 43)%N = false.
Proof. char_cases c. Qed.

Lemma isdigit_not_underscore c :
  Char.isdigit c = true -> Char.is_underscore c = false.
Proof. char_cases c. Qed.

Lemma digit_value_range c :
  Char.isdecimal c = true -> 0 <= Char.digit_value c <= 9.
Proof.
  unfold Char.isdecimal, Char.digit_value. intros H.
  apply andb_true_iff in H. destruct H as [H1 H2].
  apply N.leb_le in H1. apply N.leb_le in H2. lia.
Qed.

Lemma isdecimal_zero : Char.isdecimal "0" = true.
Proof. reflexivity. Qed.

Lemma isdigit_zero : Char.isdigit "0" = true.
Proof. reflexivity. Qed.

(* ================================================================= *)
(** ** Facts about strings *)

Lemma forallb_app p s t :
  Str.forallb p (s ++ t) = Str.forallb p s && Str.forallb p t.
Proof.
  induction s as [|c s IH]; simpl; [reflexivity|].
  rewrite IH. apply andb_assoc.
Qed.

Lemma forallb_zeros p n : p "0"%char = true -> Str.forallb p (Str.zeros n) = true.
Proof. intros H. induction n; simpl; [reflexivity|]. now rewrite H, IHn. Qed.

Lemma length_append s t : length (s ++ t) = (length s + length t)%nat.
Proof. induction s; simpl; [reflexivity|]. now rewrite IHs. Qed.

Lemma length_zeros n : length (Str.zeros n) = n.
Proof. induction n; simpl; [reflexivity|]. now rewrite IHn. Qed.

Lemma isdigit_forallb s : Str.isdigit s = true -> Str.forallb Char.isdigit s = true.
Proof. destruct s; [discriminate|]. intros H. exact H. Qed.

Lemma isdigit_nonempty s : Str.isdigit s = true -> (1 <= length s)%nat.
Proof. destruct s; [discriminate|]. simpl. lia. Qed.

Lemma forallb_isdigit s :
  Str.forallb Char.isdigit s = true -> (1 <= length s)%nat -> Str.isdigit s = true.
Proof. destruct s; simpl; [lia|]. intros H _. exact H. Qed.

Lemma forallb_decimal_digit s :
  Str.forallb Char.isdecimal s = true -> Str.forallb Char.isdigit s = true.
Proof.
  induction s as [|c s IH]; simpl; [reflexivity|].
  intros H. apply andb_true_iff in H. destruct H as [H1 H2].
  now rewrite (isdecimal_isdigit _ H1), IH.
Qed.

(** [zfill] on a string of digits only adds zeros in front. *)
Lemma zfill_digits w s :
  Str.forallb Char.isdigit s = true ->
  Str.zfill w s = Str.zeros (w - length s) ++ s.
Proof.
  destruct s as [|c s]; simpl.
  - intros _. induction (w - 0)%nat; simpl; [reflexivity|]. now f_equal.
  - intros H. apply andb_true_iff in H. destruct H as [H _].
    now rewrite (isdigit_not_sign _ H).
Qed.

(** A string of at most six characters, padded, is six characters. *)
Lemma padded_six s :
  (length s <= 6)%nat ->
  exists a b c d e f,
    Str.zeros (6 - length s) ++ s =
      String a (String b (String c (String d (String e (String f ""))))).
Proof.
  intros H.
  destruct s as [|c1 [|c2 [|c3 [|c4 [|c5 [|c6 [|c7 s]]]]]]];
    simpl in *; try lia; repeat eexists.
Qed.

(* ================================================================= *)
(** ** [int] on two digits, [parse_time] on its three groups *)

(** [int] on two characters that pass [str.isdigit]: their decimal value
    if both are decimal digits, [ValueError] otherwise. *)
Lemma py_int_pair a b :
  Char.isdigit a = true -> Char.isdigit b = true ->
  py_int (pair_string a b) =
    if Char.isdecimal a && Char.isdecimal b
    then Ok (10 * Char.digit_value a + Char.digit_value b)
    else Raise (InvalidLiteral (pair_string a b)).
Proof.
  intros Ha Hb. unfold py_int, pair_string. simpl.
  rewrite (isdigit_not_int_space _ Hb). simpl.
  rewrite (isdigit_not_int_space _ Ha).
  rewrite (isdigit_not_minus _ Ha), (isdigit_not_plus _ Ha).
  simpl.
  rewrite (isdigit_not_underscore _ Ha), (isdigit_not_underscore _ Hb).
  destruct (Char.isdecimal a); simpl; [|reflexivity].
  destruct (Char.isdecimal b); simpl; [|reflexivity].
  f_equal.
Qed.

(** On an input that passes both guards, [parse_time] reads the three
    two-character groups of the padded string.  The groups that the code
    skips for a short input are ["00"]. *)
Lemma parse_time_groups time_str a b c d e f :
  Str.isdigit (Str.strip time_str) = true ->
  (length (Str.strip time_str) <= 6)%nat ->
  Spec.pad6 (Str.strip time_str) =
    String a (String b (String c (String d (String e (String f ""))))) ->
  parse_time time_str =
    hms (py_int (pair_string a b)) (py_int (pair_string c d))
        (py_int (pair_string e f)).
Proof.
  unfold parse_time, Spec.pad6.
  generalize (Str.strip time_str) as clean. intros clean Hd Hl Hp.
  rewrite Hd. simpl negb. cbv iota.
  rewrite (zfill_digits 6 clean (isdigit_forallb _ Hd)), Hp.
  pose proof (isdigit_nonempty _ Hd) as Hn.
  destruct clean as [|c1 [|c2 [|c3 [|c4 [|c5 [|c6 [|c7 s]]]]]]];
    simpl in Hn, Hl; try lia;
    simpl in Hp; injection Hp as <- <- <- <- <- <-; reflexivity.
Qed.

(** All six characters of the padded string pass [str.isdigit]. *)
Lemma padded_digits s a b c d e f :
  Str.isdigit s = true ->
  Spec.pad6 s =
    String a (String b (String c (String d (String e (String f ""))))) ->
  Char.isdigit a = true /\ Char.isdigit b = true /\ Char.isdigit c = true /\
  Char.isdigit d = true /\ Char.isdigit e = true /\ Char.isdigit f = true.
Proof.
  intros Hd Hp.
  assert (H : Str.forallb Char.isdigit (Spec.pad6 s) = true).
  { unfold Spec.pad6. rewrite forallb_app, (isdigit_forallb _ Hd).
    now rewrite forallb_zeros. }
  rewrite Hp in H. simpl in H.
  repeat (apply andb_true_iff in H; destruct H as [? H]). tauto.
Qed.

Lemma padded_decimals s a b c d e f :
  Str.forallb Char.isdecimal s = true ->
  Spec.pad6 s =
    String a (String b (String c (String d (String e (String f ""))))) ->
  Char.isdecimal a = true /\ Char.isdecimal b = true /\ Char.isdecimal c = true /\
  Char.isdecimal d = true /\ Char.isdecimal e = true /\ Char.isdecimal f = true.
Proof.
  intros Hd Hp.
  assert (H : Str.forallb Char.isdecimal (Spec.pad6 s) = true).
  { unfold Spec.pad6. rewrite forallb_app, Hd. now rewrite forallb_zeros. }
  rewrite Hp in H. simpl in H.
  repeat (apply andb_true_iff in H; destruct H as [? H]). tauto.
Qed.

Lemma decimal_zeros n s : Spec.decimal (Str.zeros n ++ s) 0 = Spec.decimal s 0.
Proof. induction n; simpl; [reflexivity|]. exact IHn. Qed.

(* ================================================================= *)
(** ** Parsing of the time code *)

(** The value of an accepted input, as the specification decodes it. *)
Lemma parse_time_value time_str :
  Str.forallb Char.isdecimal (Str.strip time_str) = true ->
  (1 <= length (Str.strip time_str) <= 6)%nat ->
  parse_time time_str = Ok (Spec.total_seconds (Str.strip time_str)).
Proof.
  intros Hdec [Hlo Hhi].
  destruct (padded_six _ Hhi) as (a & b & c & d & e & f & Hp).
  fold (Spec.pad6 (Str.strip time_str)) in Hp.
  destruct (padded_decimals _ _ _ _ _ _ _ Hdec Hp)
    as (Ha & Hb & Hc & Hd & He & Hf).
  assert (Hdig : Str.isdigit (Str.strip time_str) = true).
  { apply forallb_isdigit; [now apply forallb_decimal_digit | exact Hlo]. }
  rewrite (parse_time_groups _ _ _ _ _ _ _ Hdig Hhi Hp).
  rewrite !py_int_pair by now apply isdecimal_isdigit.
  rewrite Ha, Hb, Hc, Hd, He, Hf. simpl.
  unfold Spec.total_seconds, Spec.hours, Spec.minutes, Spec.seconds, Spec.group.
  rewrite Hp. simpl. reflexivity.
Qed.

(** Read as one decimal number, the digits are 100*100*H + 100*M + S. *)
Lemma decimal_groups digits :
  (length digits <= 6)%nat ->
  Spec.decimal digits 0 =
    100 * 100 * Spec.hours digits + 100 * Spec.minutes digits
    + Spec.seconds digits.
Proof.
  intros Hhi.
  destruct (padded_six _ Hhi) as (a & b & c & d & e & f & Hp).
  fold (Spec.pad6 digits) in Hp.
  unfold Spec.hours, Spec.minutes, Spec.seconds, Spec.group.
  rewrite <- (decimal_zeros (6 - length digits)).
  fold (Spec.pad6 digits). rewrite Hp.
  cbn [Spec.decimal substring]. lia.
Qed.

(** C1.  For every input that, once stripped, is 1 to 6 decimal digits,
    [parse_time] succeeds and returns hours*3600 + minutes*60 + seconds,
    where the three numbers are the two-digit groups [0:2], [2:4] and [4:6]
    of the digit string left-padded with zeros to six characters; read as
    one decimal number the digits are 100*100*H + 100*M + S.  So ["45"]
    gives 45, ["100"] gives 60 and ["013245"] gives 5565. *)
Theorem parse_time_decodes :
  (forall time_str,
     Str.forallb Char.isdecimal (Str.strip time_str) = true ->
     (1 <= length (Str.strip time_str) <= 6)%nat ->
     parse_time time_str = Ok (Spec.total_seconds (Str.strip time_str)) /\
     Spec.decimal (Str.strip time_str) 0 =
       100 * 100 * Spec.hours (Str.strip time_str)
       + 100 * Spec.minutes (Str.strip time_str)
       + Spec.seconds (Str.strip time_str)) /\
  parse_time "45" = Ok 45 /\
  parse_time "100" = Ok 60 /\
  parse_time "013245" = Ok 5565 /\
  parse_time "1" = Ok 1.
Proof.
  split; [|repeat split; reflexivity].
  intros time_str Hdec Hl. split.
  - now apply parse_time_value.
  - apply decimal_groups, Hl.
Qed.

Lemma parse_time_decodes_witness :
  parse_time " 0130 " = Ok (Spec.total_seconds (Str.strip " 0130 ")) /\
  Spec.decimal (Str.strip " 0130 ") 0 =
    100 * 100 * Spec.hours (Str.strip " 0130 ")
    + 100 * Spec.minutes (Str.strip " 0130 ")
    + Spec.seconds (Str.strip " 0130 ").
Proof.
  apply (proj1 parse_time_decodes " 0130 "); [reflexivity | simpl; lia].
Defined.

(** The first guard (lines 28-29). *)
Lemma parse_time_nondigit time_str :
  Str.isdigit (Str.strip time_str) = false -> parse_time time_str = Raise NonDigit.
Proof. unfold parse_time. intros ->. reflexivity. Qed.

(** The second guard (lines 30-32). *)
Lemma parse_time_badlength time_str :
  Str.isdigit (Str.strip time_str) = true ->
  (6 < length (Str.strip time_str))%nat ->
  parse_time time_str = Raise BadLength.
Proof.
  unfold parse_time. intros -> Hl. simpl negb. cbv iota.
  destruct (Z.gtb_spec (Z.of_nat (length (Str.strip time_str))) 6); [reflexivity|lia].
Qed.

(** Past the guards, the result of the three conversions in terms of the
    six padded characters. *)
Lemma hms_pairs a b c d e f :
  Char.isdigit a = true -> Char.isdigit b = true -> Char.isdigit c = true ->
  Char.isdigit d = true -> Char.isdigit e = true -> Char.isdigit f = true ->
  (Char.isdecimal a && Char.isdecimal b && Char.isdecimal c
   && Char.isdecimal d && Char.isdecimal e && Char.isdecimal f = true /\
   hms (py_int (pair_string a b)) (py_int (pair_string c d))
       (py_int (pair_string e f)) =
     Ok ((10 * Char.digit_value a + Char.digit_value b) * 3600
         + (10 * Char.digit_value c + Char.digit_value d) * 60
         + (10 * Char.digit_value e + Char.digit_value f)))
  \/
  (Char.isdecimal a && Char.isdecimal b && Char.isdecimal c
   && Char.isdecimal d && Char.isdecimal e && Char.isdecimal f = false /\
   exists lit,
     hms (py_int (pair_string a b)) (py_int (pair_string c d))
         (py_int (pair_string e f)) = Raise (InvalidLiteral lit)).
Proof.
  intros Ha Hb Hc Hd He Hf. rewrite !py_int_pair by assumption.
  destruct (Char.isdecimal a), (Char.isdecimal b), (Char.isdecimal c),
    (Char.isdecimal d), (Char.isdecimal e), (Char.isdecimal f); simpl;
    first [ left; split; reflexivity
          | right; split; [reflexivity | eexists; reflexivity] ].
Qed.

Lemma forallb_pad6 p s a b c d e f :
  Spec.pad6 s =
    String a (String b (String c (String d (String e (String f ""))))) ->
  p a && p b && p c && p d && p e && p f = true ->
  Str.forallb p s = true.
Proof.
  intros Hp H.
  assert (Hall : Str.forallb p (Spec.pad6 s) = true).
  { rewrite Hp. simpl. rewrite andb_true_r. now rewrite !andb_assoc. }
  unfold Spec.pad6 in Hall. rewrite forallb_app in Hall.
  now apply andb_true_iff in Hall.
Qed.

(** The inputs [parse_time] accepts are exactly the strings of 1 to 6
    decimal digits, surrounded by whitespace or not. *)
Lemma parse_time_accepts time_str v :
  parse_time time_str = Ok v ->
  Str.forallb Char.isdecimal (Str.strip time_str) = true /\
  (1 <= length (Str.strip time_str) <= 6)%nat.
Proof.
  intros H.
  destruct (Str.isdigit (Str.strip time_str)) eqn:Hd.
  2:{ rewrite (parse_time_nondigit _ Hd) in H. discriminate. }
  destruct (le_lt_dec (length (Str.strip time_str)) 6) as [Hl|Hl].
  2:{ rewrite (parse_time_badlength _ Hd Hl) in H. discriminate. }
  destruct (padded_six _ Hl) as (a & b & c & d & e & f & Hp).
  fold (Spec.pad6 (Str.strip time_str)) in Hp.
  rewrite (parse_time_groups _ _ _ _ _ _ _ Hd Hl Hp) in H.
  destruct (padded_digits _ _ _ _ _ _ _ Hd Hp) as (Ha & Hb & Hc & Hd' & He & Hf).
  destruct (hms_pairs a b c d e f Ha Hb Hc Hd' He Hf) as [[Hall _]|[_ [lit Hr]]].
  - split; [| split; [now apply isdigit_nonempty | exact Hl]].
    exact (forallb_pad6 _ _ _ _ _ _ _ _ Hp Hall).
  - rewrite Hr in H. discriminate.
Qed.

(** Every two-digit group is between 0 and 99. *)
Lemma total_seconds_range digits :
  Str.forallb Char.isdecimal digits = true -> (length digits <= 6)%nat ->
  0 <= Spec.hours digits <= 99 /\ 0 <= Spec.minutes digits <= 99 /\
  0 <= Spec.seconds digits <= 99.
Proof.
  intros Hdec Hl.
  destruct (padded_six _ Hl) as (a & b & c & d & e & f & Hp).
  fold (Spec.pad6 digits) in Hp.
  destruct (padded_decimals _ _ _ _ _ _ _ Hdec Hp)
    as (Ha & Hb & Hc & Hd & He & Hf).
  apply digit_value_range in Ha, Hb, Hc, Hd, He, Hf.
  unfold Spec.hours, Spec.minutes, Spec.seconds, Spec.group. rewrite Hp.
  cbn [Spec.decimal substring]. lia.
Qed.

Lemma parse_time_range time_str v :
  parse_time time_str = Ok v -> 0 <= v <= 362439.
Proof.
  intros H. destruct (parse_time_accepts _ _ H) as [Hdec Hl].
  rewrite (parse_time_value time_str Hdec Hl) in H. injection H as <-.
  destruct (total_seconds_range _ Hdec (proj2 Hl)) as (Hh & Hm & Hs).
  unfold Spec.total_seconds. lia.
Qed.

Example parse_time_superscript :
  Str.isdigit superscript_two = true /\
  parse_time superscript_two = Raise (InvalidLiteral ("0" ++ superscript_two)).
Proof. split; reflexivity. Qed.

(* ================================================================= *)
(** ** Rejected inputs *)

(** An input with a character that is no decimal digit, an empty input
    and an input of more than six characters are all rejected. *)
Lemma parse_time_rejected time_str :
  Str.forallb Char.isdecimal (Str.strip time_str) = false \/
  length (Str.strip time_str) = 0%nat \/
  (6 < length (Str.strip time_str))%nat ->
  exists e, parse_time time_str = Raise e.
Proof.
  intros H. destruct (parse_time time_str) as [v|e] eqn:E; [|now exists e].
  destruct (parse_time_accepts _ _ E) as [Hdec Hl].
  destruct H as [H|[H|H]]; [congruence | lia | lia].
Qed.

(** C4.  The code at the two inputs where it leaves the error kinds
    stated for it: [NonDigit] for every input with a character that is no
    decimal digit, [BadLength] for every input of length 0 or more than 6.
    The empty input has length 0 and gets [NonDigit]: [''.isdigit()] is
    false, so line 29 raises and the [length < 1] test of line 31 is never
    reached.  The superscript two is no decimal digit and gets neither
    kind: it passes [str.isdigit] at line 28 and [int] raises its own
    [ValueError] at line 37.  So neither half of the statement holds of the
    code, while ["1234567"] and ["12a45"] fail as stated. *)
Theorem parse_time_error_kinds_bug :
  (length (Str.strip "") = 0%nat /\ parse_time "" = Raise NonDigit) /\
  (Str.forallb Char.isdecimal (Str.strip superscript_two) = false /\
   Str.isdigit (Str.strip superscript_two) = true /\
   parse_time superscript_two = Raise (InvalidLiteral ("0" ++ superscript_two))) /\
  ~ (forall time_str,
       Str.forallb Char.isdecimal (Str.strip time_str) = false ->
       parse_time time_str = Raise NonDigit) /\
  ~ (forall time_str,
       length (Str.strip time_str) = 0%nat \/
       (6 < length (Str.strip time_str))%nat ->
       parse_time time_str = Raise BadLength) /\
  parse_time "1234567" = Raise BadLength /\
  parse_time "12a45" = Raise NonDigit.
Proof.
  split; [split; reflexivity|]. split; [repeat split; reflexivity|].
  split; [|split; [|split; reflexivity]]; intros H.
  - specialize (H superscript_two eq_refl). discriminate H.
  - specialize (H "" (or_introl eq_refl)). discriminate H.
Qed.

(* ================================================================= *)
(** ** The range of the time code *)

(** C10.  [parse_time] does not check the range of a group: minutes and
    seconds may exceed 59 (["99"] is 99 seconds, ["0199"] is 159 seconds),
    and every accepted input gives an integer between 0 and
    99*3600 + 99*60 + 99 = 362439, which ["999999"] reaches. *)
Theorem parse_time_no_range_check :
  parse_time "99" = Ok 99 /\
  parse_time "0199" = Ok 159 /\
  parse_time "999999" = Ok 362439 /\
  99 * 3600 + 99 * 60 + 99 = 362439 /\
  (forall time_str v, parse_time time_str = Ok v -> 0 <= v <= 362439).
Proof.
  repeat split; try reflexivity; now apply (parse_time_range time_str).
Qed.

Lemma parse_time_no_range_check_witness : 0 <= 5999 <= 362439.
Proof.
  apply (proj2 (proj2 (proj2 (proj2 parse_time_no_range_check))) "9959").
  reflexivity.
Defined.

(* ================================================================= *)
(** ** The output path *)

Lemma append_inv_head a b c : a ++ b = a ++ c -> b = c.
Proof. induction a as [|x a IH]; simpl; intros H; [exact H|]. injection H as H. auto. Qed.

Lemma append_inv_tail a b c : a ++ c = b ++ c -> a = b.
Proof.
  revert b. induction a as [|x a IH]; intros [|y b] H; simpl in H.
  - reflexivity.
  - apply (f_equal length) in H. simpl in H. rewrite length_append in H. lia.
  - apply (f_equal length) in H. simpl in H. rewrite length_append in H. lia.
  - injection H as -> H. f_equal. now apply IH.
Qed.

Lemma append_assoc (a b c : string) : (a ++ b) ++ c = a ++ (b ++ c).
Proof. induction a as [|x a IH]; simpl; [reflexivity|]. now rewrite IH. Qed.

Lemma string_of_uint_inj d d' :
  NilEmpty.string_of_uint d = NilEmpty.string_of_uint d' -> d = d'.
Proof.
  intros H. apply (f_equal NilEmpty.uint_of_string) in H.
  rewrite !NilEmpty.usu in H. now injection H.
Qed.

(** [str] is injective on the natural numbers. *)
Lemma of_nat_inj n n' : Str.of_nat n = Str.of_nat n' -> n = n'.
Proof. intros H. now apply Unsigned.to_uint_inj, string_of_uint_inj. Qed.

(** Different counters give different names, and a name with a counter
    is never the name without one. *)
Lemma output_name_inj stem s e suffix c c' :
  output_name stem s e suffix c = output_name stem s e suffix c' -> c = c'.
Proof.
  unfold output_name.
  destruct c as [k|], c' as [k'|]; intros H;
    do 5 (apply append_inv_head in H).
  - apply append_inv_head, append_inv_tail, of_nat_inj in H. now subst.
  - apply (f_equal length) in H. simpl in H. rewrite !length_append in H. lia.
  - apply (f_equal length) in H. simpl in H. rewrite !length_append in H. lia.
  - reflexivity.
Qed.

Lemma candidate_inj w stem s e suffix k k' :
  candidate w stem s e suffix k = candidate w stem s e suffix k' -> k = k'.
Proof.
  unfold candidate, joinpath. intros H.
  do 2 apply append_inv_head in H. apply output_name_inj in H.
  destruct k, k'; congruence.
Qed.

Lemma path_exists_in w p :
  path_exists w p = true -> In p (map fst (files w)).
Proof.
  unfold path_exists. induction (files w) as [|[q st] fs IH]; simpl.
  - discriminate.
  - destruct (String.eqb_spec p q) as [->|_]; [now left | right; auto].
Qed.

(** What [output_loop] returns: the first path it tries that does not
    exist, or nothing when all [fuel] paths exist. *)
Lemma output_loop_first w fuel name p c :
  match output_loop w fuel name p c with
  | Some q =>
      exists j, (j < fuel)%nat /\ q = tried w name p c j /\
                path_exists w q = false /\
                forall i, (i < j)%nat -> path_exists w (tried w name p c i) = true
  | None =>
      forall j, (j < fuel)%nat -> path_exists w (tried w name p c j) = true
  end.
Proof.
  revert p c. induction fuel as [|fuel IH]; intros p c; simpl.
  - intros j Hj. lia.
  - destruct (path_exists w p) eqn:Hp.
    + specialize (IH (joinpath w (get_base_path w) (name c)) (S c)).
      assert (Hshift : forall j,
                 tried w name (joinpath w (get_base_path w) (name c)) (S c) j
                 = tried w name p c (S j)).
      { intros [|j]; simpl; [now rewrite Nat.add_0_r|].
        now rewrite Nat.add_succ_r. }
      destruct (output_loop w fuel name _ (S c)) as [q|].
      * destruct IH as (j & Hj & Hq & Hn & Hbefore).
        exists (S j). rewrite Hshift in Hq.
        repeat split; [lia | exact Hq | exact Hn |].
        intros [|i] Hi; [exact Hp|]. rewrite <- Hshift. apply Hbefore. lia.
      * intros [|j] Hj; [exact Hp|]. rewrite <- Hshift. apply IH. lia.
    + exists 0%nat. repeat split; [lia | exact Hp |]. intros i Hi. lia.
Qed.

Lemma tried_candidate w stem s e suffix j :
  tried w (fun counter => output_name stem s e suffix (Some counter))
    (joinpath w (get_base_path w) (output_name stem s e suffix None)) 1 j
  = candidate w stem s e suffix j.
Proof. destruct j; reflexivity. Qed.

(** Not every one of more paths than there are files can exist. *)
Lemma candidates_exhausted w stem s e suffix :
  ~ (forall j, (j < S (List.length (files w)))%nat ->
               path_exists w (candidate w stem s e suffix j) = true).
Proof.
  intros H.
  set (l := map (candidate w stem s e suffix) (seq 0 (S (List.length (files w))))).
  assert (Hnd : NoDup l).
  { apply Injective_map_NoDup; [|apply seq_NoDup].
    intros k k'. apply candidate_inj. }
  assert (Hincl : incl l (map fst (files w))).
  { intros p Hp. apply in_map_iff in Hp. destruct Hp as (j & <- & Hj).
    apply in_seq in Hj. apply path_exists_in, H. lia. }
  pose proof (NoDup_incl_length Hnd Hincl) as Hlen.
  unfold l in Hlen. rewrite length_map, length_seq, length_map in Hlen. lia.
Qed.

(** The loop always ends, at the first candidate that does not exist. *)
Lemma resolve_output_first w stem s e suffix :
  exists k,
    resolve_output w stem s e suffix = Some (candidate w stem s e suffix k) /\
    path_exists w (candidate w stem s e suffix k) = false /\
    forall j, (j < k)%nat -> path_exists w (candidate w stem s e suffix j) = true.
Proof.
  unfold resolve_output.
  pose proof (output_loop_first w (S (List.length (files w)))
                (fun counter => output_name stem s e suffix (Some counter))
                (joinpath w (get_base_path w) (output_name stem s e suffix None)) 1)
    as H.
  destruct (output_loop w _ _ _ 1) as [q|].
  - destruct H as (j & _ & Hq & Hn & Hbefore). exists j.
    rewrite tried_candidate in Hq. subst q. repeat split; [exact Hn|].
    intros i Hi. rewrite <- tried_candidate. now apply Hbefore.
  - exfalso. apply (candidates_exhausted w stem s e suffix).
    intros j Hj. rewrite <- tried_candidate. now apply H.
Qed.

(** C3.  The resolver never returns a path that exists.  It tries
    [{stem}_{start}_{end}{suffix}] in the program's own directory, then the
    same name with [_1], [_2], ... before the suffix, and returns the first
    of them that does not exist; the loop always ends.  If
    [clip_010000_020000.mp4] exists and [clip_010000_020000_1.mp4] does not,
    it returns the latter. *)
Theorem resolve_output_never_exists :
  (forall w stem s e suffix,
     exists k,
       resolve_output w stem s e suffix = Some (candidate w stem s e suffix k) /\
       path_exists w (candidate w stem s e suffix k) = false /\
       forall j, (j < k)%nat ->
                 path_exists w (candidate w stem s e suffix j) = true) /\
  (forall w stem s e suffix,
     candidate w stem s e suffix 0 =
       base_path w ++ sep w ++ stem ++ "_" ++ s ++ "_" ++ e ++ suffix) /\
  (forall w stem s e suffix k,
     candidate w stem s e suffix (S k) =
       base_path w ++ sep w ++ stem ++ "_" ++ s ++ "_" ++ e ++ "_"
       ++ Str.of_nat (S k) ++ suffix) /\
  (forall w,
     path_exists w (base_path w ++ sep w ++ "clip_010000_020000.mp4") = true ->
     path_exists w (base_path w ++ sep w ++ "clip_010000_020000_1.mp4") = false ->
     resolve_output w "clip" "010000" "020000" ".mp4" =
       Some (base_path w ++ sep w ++ "clip_010000_020000_1.mp4")).
Proof.
  split; [exact resolve_output_first|].
  split; [reflexivity|]. split; [reflexivity|].
  intros w H0 H1.
  destruct (resolve_output_first w "clip" "010000" "020000" ".mp4")
    as (k & Hk & Hn & Hbefore).
  rewrite Hk. f_equal.
  destruct k as [|[|k]].
  - change (candidate w "clip" "010000" "020000" ".mp4" 0)
      with (base_path w ++ sep w ++ "clip_010000_020000.mp4") in Hn.
    congruence.
  - reflexivity.
  - specialize (Hbefore 1%nat ltac:(lia)).
    change (candidate w "clip" "010000" "020000" ".mp4" 1)
      with (base_path w ++ sep w ++ "clip_010000_020000_1.mp4") in Hbefore.
    congruence.
Qed.

Lemma resolve_output_never_exists_witness :
  resolve_output (demo [] Completed) "clip" "010000" "020000" ".mp4" =
    Some "/opt/mkvcut/clip_010000_020000_1.mp4".
Proof.
  apply (proj2 (proj2 (proj2 resolve_output_never_exists)) (demo [] Completed));
    reflexivity.
Defined.

(* ================================================================= *)
(** ** Programs and their events *)

Lemma emits_ret {A} P (a : A) : emits P (ret a).
Proof. intros i. constructor. Qed.

Lemma emits_print P text : P (Print text) -> emits P (print text).
Proof. intros H i. simpl. auto. Qed.

Lemma emits_print_mb P label bytes :
  P (PrintMB label bytes) -> emits P (print_mb label bytes).
Proof. intros H i. simpl. auto. Qed.

Lemma emits_input P prompt :
  (forall line, P (Input prompt line)) -> emits P (input prompt).
Proof. intros H [|l i]; simpl; auto. Qed.

Lemma emits_sys_exit {A} P code : emits P (@sys_exit A code).
Proof. intros i. constructor. Qed.

Lemma emits_raise {A} P exn : emits P (@raise A exn).
Proof. intros i. constructor. Qed.

Lemma emits_hang {A} P : emits P (@hang A).
Proof. intros i. constructor. Qed.

Lemma emits_bind {A B} P (m : M A) (f : A -> M B) :
  emits P m -> (forall a, emits P (f a)) -> emits P (bind m f).
Proof.
  intros Hm Hf i. unfold bind. specialize (Hm i).
  destruct (m i) as [t1 [a i'|s]]; simpl in *; [|exact Hm].
  specialize (Hf a i'). destruct (f a i') as [t2 r]. simpl in *.
  apply Forall_app. now split.
Qed.

Lemma Forall_after {A} P evs (r : list event * step A) :
  Forall P evs -> Forall P (fst r) -> Forall P (fst (after evs r)).
Proof. intros H1 H2. unfold after. simpl. apply Forall_app. now split. Qed.

(** A program that ends with a value: the pieces of a [bind]. *)
Lemma bind_done {A B} (m : M A) (f : A -> M B) i t b rest :
  bind m f i = (t, Done b rest) ->
  exists t1 a i1 t2,
    m i = (t1, Done a i1) /\ f a i1 = (t2, Done b rest) /\ t = (t1 ++ t2)%list.
Proof.
  unfold bind. destruct (m i) as [t1 [a i1|s]]; [|discriminate].
  destruct (f a i1) as [t2 r] eqn:E. intros H. injection H as <- ->.
  now exists t1, a, i1, t2.
Qed.

Ltac text_differs :=
  let H := fresh in
  intros H;
  cbv [negative_start confirm_prompt pause_prompt start_prompt end_prompt nl] in H;
  simpl in H; discriminate H.

(* ================================================================= *)
(** ** The two input loops *)

Lemma start_loop_events : emits gather_event start_loop.
Proof.
  intros lines. induction lines as [|l rest IH]; simpl.
  - repeat constructor. text_differs.
  - constructor; [text_differs|].
    destruct (parse_time (Str.strip l)) as [v|e] eqn:E; simpl.
    + pose proof (parse_time_range _ _ E) as Hv.
      destruct (Z.ltb_spec v 0); [lia|]. constructor.
    + constructor; [text_differs | exact IH].
Qed.

Lemma end_loop_events start_time : emits gather_event (end_loop start_time).
Proof.
  intros lines. induction lines as [|l rest IH]; simpl.
  - repeat constructor. text_differs.
  - constructor; [text_differs|].
    destruct (parse_time (Str.strip l)) as [v|e] eqn:E; simpl.
    + destruct (v <=? start_time); simpl; [|constructor].
      constructor; [text_differs | exact IH].
    + constructor; [text_differs | exact IH].
Qed.

(** What the first loop hands over: a line that was typed, stripped, and
    its value. *)
Lemma start_loop_done lines t s v rest :
  start_loop lines = (t, Done (s, v) rest) ->
  exists line,
    In (Input start_prompt (Some line)) t /\ s = Str.strip line /\
    parse_time (Str.strip line) = Ok v.
Proof.
  revert t. induction lines as [|l lines IH]; intros t; simpl; [discriminate|].
  unfold after.
  destruct (parse_time (Str.strip l)) as [x|e] eqn:E; simpl.
  - destruct (x <? 0); simpl.
    + destruct (start_loop lines) as [t' r] eqn:E'. simpl.
      intros H. injection H as <- ->.
      destruct (IH _ eq_refl) as (line & Hin & Hs & Hp).
      exists line. split; [|now split]. right. right. exact Hin.
    + intros H. injection H as <- <- <- <-. exists l.
      split; [now left | now split].
  - destruct (start_loop lines) as [t' r] eqn:E'. simpl.
    intros H. injection H as <- ->.
    destruct (IH _ eq_refl) as (line & Hin & Hs & Hp).
    exists line. split; [|now split]. right. right. exact Hin.
Qed.

Lemma end_loop_done start_time lines t s v rest :
  end_loop start_time lines = (t, Done (s, v) rest) ->
  exists line,
    In (Input end_prompt (Some line)) t /\ s = Str.strip line /\
    parse_time (Str.strip line) = Ok v /\ start_time < v.
Proof.
  revert t. induction lines as [|l lines IH]; intros t; simpl; [discriminate|].
  unfold after.
  destruct (parse_time (Str.strip l)) as [x|e] eqn:E; simpl.
  - destruct (Z.leb_spec x start_time); simpl.
    + destruct (end_loop start_time lines) as [t' r] eqn:E'. simpl.
      intros Hr. injection Hr as <- ->.
      destruct (IH _ eq_refl) as (line & Hin & Hs & Hp).
      exists line. split; [|now split]. right. right. exact Hin.
    + intros Hr. injection Hr as <- <- <- <-. exists l.
      split; [now left | repeat split; auto].
  - destruct (end_loop start_time lines) as [t' r] eqn:E'. simpl.
    intros Hr. injection Hr as <- ->.
    destruct (IH _ eq_refl) as (line & Hin & Hs & Hp).
    exists line. split; [|now split]. right. right. exact Hin.
Qed.

(* ================================================================= *)
(** ** The two parts of [main] *)

Lemma gather_events w : emits gather_event (gather w).
Proof.
  unfold gather.
  destruct (List.length (argv w) <? 2)%nat.
  { repeat (apply emits_bind; [|intros ?]);
      try apply emits_print; try apply emits_input; try apply emits_sys_exit;
      simpl; intros; text_differs. }
  destruct (path_exists w (nth 1 (argv w) "")); simpl.
  2:{ repeat (apply emits_bind; [|intros ?]);
      try apply emits_print; try apply emits_input; try apply emits_sys_exit;
      simpl; intros; text_differs. }
  destruct (path_is_file w (nth 1 (argv w) "")); simpl.
  2:{ repeat (apply emits_bind; [|intros ?]);
      try apply emits_print; try apply emits_input; try apply emits_sys_exit;
      simpl; intros; text_differs. }
  apply emits_bind; [apply emits_print; simpl; text_differs | intros _].
  apply emits_bind.
  { destruct (lookup _ _); [apply emits_print_mb; exact I | apply emits_raise]. }
  intros _. apply emits_bind; [exact start_loop_events | intros [si st]].
  apply emits_bind; [apply end_loop_events | intros [ei et]].
  apply emits_bind; [apply emits_print; simpl; text_differs | intros _].
  apply emits_bind; [apply emits_print; simpl; text_differs | intros _].
  apply emits_bind; [apply emits_print; simpl; text_differs | intros _].
  destruct (resolve_output _ _ _ _ _); [|apply emits_hang].
  apply emits_bind; [apply emits_print; simpl; text_differs | intros _].
  apply emits_ret.
Qed.

(** What [gather] hands over when it ends with a job. *)
Lemma gather_done w i t job rest :
  gather w i = (t, Done job rest) ->
  exists start_line end_line k,
    In (Input start_prompt (Some start_line)) t /\
    In (Input end_prompt (Some end_line)) t /\
    start_input job = Str.strip start_line /\
    end_input job = Str.strip end_line /\
    parse_time (Str.strip start_line) = Ok (start_time job) /\
    parse_time (Str.strip end_line) = Ok (end_time job) /\
    start_time job < end_time job /\
    input_path job = path_str w (nth 1 (argv w) "") /\
    output_path job =
      candidate w (path_stem w (nth 1 (argv w) "")) (Str.strip start_line)
        (Str.strip end_line) (path_suffix w (nth 1 (argv w) "")) k /\
    path_exists w (output_path job) = false /\
    In (Print ("Output file: " ++ output_path job ++ nl)) t.
Proof.
  unfold gather.
  destruct (List.length (argv w) <? 2)%nat.
  { intros H. repeat (apply bind_done in H;
      destruct H as (? & ? & ? & ? & ? & H & ?)). discriminate H. }
  destruct (path_exists w (nth 1 (argv w) "")); simpl.
  2:{ intros H. repeat (apply bind_done in H;
      destruct H as (? & ? & ? & ? & ? & H & ?)). discriminate H. }
  destruct (path_is_file w (nth 1 (argv w) "")); simpl.
  2:{ intros H. repeat (apply bind_done in H;
      destruct H as (? & ? & ? & ? & ? & H & ?)). discriminate H. }
  intros H.
  apply bind_done in H. destruct H as (t1 & [] & i1 & t1' & _ & H & ->).
  apply bind_done in H. destruct H as (t2 & [] & i2 & t2' & _ & H & ->).
  apply bind_done in H. destruct H as (t3 & [si st] & i3 & t3' & Hs & H & ->).
  apply bind_done in H. destruct H as (t4 & [ei et] & i4 & t4' & He & H & ->).
  apply bind_done in H. destruct H as (t5 & [] & i5 & t5' & _ & H & ->).
  apply bind_done in H. destruct H as (t6 & [] & i6 & t6' & _ & H & ->).
  apply bind_done in H. destruct H as (t7 & [] & i7 & t7' & _ & H & ->).
  destruct (start_loop_done _ _ _ _ _ Hs) as (ls & Hls & -> & Hps).
  destruct (end_loop_done _ _ _ _ _ _ He) as (le & Hle & -> & Hpe & Hlt).
  destruct (resolve_output_first w (path_stem w (nth 1 (argv w) ""))
              (Str.strip ls) (Str.strip le) (path_suffix w (nth 1 (argv w) "")))
    as (k & Hk & Hfresh & _).
  rewrite Hk in H.
  apply bind_done in H. destruct H as (t8 & [] & i8 & t8' & Hp & H & ->).
  injection Hp as <- <-. injection H as <- <- <-.
  exists ls, le, k.
  cbn [start_input end_input start_time end_time input_path output_path].
  repeat split; try assumption; try reflexivity;
    rewrite !in_app_iff; cbn [In]; tauto.
Qed.

(** A run is the first part, then the second. *)
Lemma main_cases w :
  (exists t s, gather w (stdin w) = (t, Stop s) /\ main w = (t, s)) \/
  (exists t job rest,
     gather w (stdin w) = (t, Done job rest) /\
     main w = ((t ++ fst (run_job w job rest))%list,
               final (snd (run_job w job rest)))).
Proof.
  unfold main, main_body, bind.
  destruct (gather w (stdin w)) as [t [job rest|s]].
  - right. exists t, job, rest. split; [reflexivity|].
    destruct (run_job w job rest) as [t2 [[] r|s]]; reflexivity.
  - left. now exists t, s.
Qed.

Ltac run_job_unfold :=
  cbv [run_job cut_video bind print print_mb input ret after sys_exit raise
       negb fst snd app].

(** The second part when the answer is no. *)
Lemma run_job_cancel w job line rest :
  confirmed line = false ->
  run_job w job (line :: rest) =
    ([Input confirm_prompt (Some line); Print "Operation cancelled."],
     Stop (Exit 0)).
Proof. intros H. run_job_unfold. rewrite H. reflexivity. Qed.


(** The second part runs the tool only after a yes, and only on the
    command line of [ffmpeg_cmd]. *)
Lemma run_job_run w job i cmd :
  In (Run cmd) (fst (run_job w job i)) ->
  cmd = ffmpeg_cmd w (input_path job) (start_time job) (end_time job)
          (output_path job) /\
  exists line rest, i = line :: rest /\ confirmed line = true.
Proof.
  destruct i as [|line rest].
  - simpl. intros [H|[]]. discriminate H.
  - destruct (confirmed line) eqn:Hc.
    + intros H. split; [|now exists line, rest].
      revert H. run_job_unfold. rewrite Hc.
      set (c := ffmpeg_cmd _ _ _ _ _).
      destruct (run_tool w c); [destruct (stat_after w (output_path job))| | |];
        destruct rest; cbn [In fst];
        intros H; repeat (destruct H as [H|H]; try discriminate H);
        try contradiction; now injection H.
    + rewrite (run_job_cancel _ _ _ _ Hc). simpl.
      intros [H|[H|[]]]; discriminate H.
Qed.

(** After a yes the tool is run. *)
Lemma run_job_yes w job line rest :
  confirmed line = true ->
  In (Run (ffmpeg_cmd w (input_path job) (start_time job) (end_time job)
             (output_path job)))
     (fst (run_job w job (line :: rest))).
Proof.
  intros Hc. run_job_unfold. rewrite Hc.
  set (c := ffmpeg_cmd _ _ _ _ _).
  destruct (run_tool w c); [destruct (stat_after w (output_path job))| | |];
    destruct rest; cbn [In fst]; tauto.
Qed.

(** The answer to the confirmation is the first line the second part
    reads. *)
Lemma run_job_answer w job i line :
  In (Input confirm_prompt (Some line)) (fst (run_job w job i)) ->
  exists rest, i = line :: rest.
Proof.
  destruct i as [|l rest].
  - simpl. intros [H|[]]. discriminate H.
  - intros H. exists rest. f_equal. revert H. run_job_unfold.
    destruct (confirmed l).
    + set (c := ffmpeg_cmd _ _ _ _ _).
      destruct (run_tool w c); [destruct (stat_after w (output_path job))| | |];
        destruct rest; cbn [In fst];
        intros H; repeat (destruct H as [H|H]; try discriminate H);
        try contradiction; try (now injection H);
        try (cbv [confirm_prompt pause_prompt nl] in H; simpl in H; discriminate H).
    + cbn [In fst]. intros [H|[H|[]]]; [now injection H | discriminate H].
Qed.

Lemma run_job_no_negative w job i :
  ~ In (Print negative_start) (fst (run_job w job i)).
Proof.
  destruct i as [|line rest].
  - simpl. intros [H|[]]. discriminate H.
  - run_job_unfold. destruct (confirmed line).
    + set (c := ffmpeg_cmd _ _ _ _ _).
      destruct (run_tool w c); [destruct (stat_after w (output_path job))| | |];
        destruct rest; cbn [In fst];
        intros H; repeat (destruct H as [H|H]; try discriminate H);
        try contradiction;
        try (cbv [negative_start nl] in H; simpl in H; discriminate H).
    + cbn [In fst]. intros [H|[H|[]]]; discriminate H.
Qed.

(** A run that starts the tool: the first part ended with a job, the
    answer to the confirmation was yes, and the command line is the one
    [ffmpeg_cmd] builds for the job. *)
Lemma main_run w cmd :
  In (Run cmd) (trace w) ->
  exists t job line rest,
    gather w (stdin w) = (t, Done job (line :: rest)) /\
    confirmed line = true /\
    cmd = ffmpeg_cmd w (input_path job) (start_time job) (end_time job)
            (output_path job) /\
    main w = ((t ++ fst (run_job w job (line :: rest)))%list,
              final (snd (run_job w job (line :: rest)))).
Proof.
  unfold trace. intros H.
  destruct (main_cases w) as [(t & s & Hg & Hm)|(t & job & i & Hg & Hm)];
    rewrite Hm in H; simpl in H.
  - pose proof (gather_events w (stdin w)) as Hev. rewrite Hg in Hev.
    simpl in Hev. rewrite Forall_forall in Hev. destruct (Hev _ H).
  - apply in_app_or in H. destruct H as [H|H].
    + pose proof (gather_events w (stdin w)) as Hev. rewrite Hg in Hev.
      simpl in Hev. rewrite Forall_forall in Hev. destruct (Hev _ H).
    + destruct (run_job_run _ _ _ _ H) as (Hcmd & line & rest & -> & Hc).
      now exists t, job, line, rest.
Qed.

(* ================================================================= *)
(** ** The confirmation *)

Lemma lower_y c : Char.lower c = "y"%char -> c = "y"%char \/ c = "Y"%char.
Proof.
  destruct c as [[] [] [] [] [] [] [] []]; intros H; vm_compute in H;
    try discriminate H; auto.
Qed.

(** The answers that count as yes. *)
Lemma confirmed_iff line :
  confirmed line = true <->
  Str.strip line = "" \/ Str.strip line = "y" \/ Str.strip line = "Y".
Proof.
  unfold confirmed. rewrite orb_true_iff.
  destruct (Str.strip line) as [|c [|c' s]]; simpl.
  - split; auto.
  - split.
    + intros [H|H]; [discriminate H|]. right.
      destruct (Ascii.eqb_spec (Char.lower c) "y") as [E|E]; [|discriminate H].
      destruct (lower_y _ E) as [-> | ->]; auto.
    + intros [H|[H|H]]; [discriminate H | |]; injection H as ->; now right.
  - split.
    + intros [H|H]; [discriminate H|].
      destruct (Ascii.eqb (Char.lower c) "y"); discriminate H.
    + intros [H|[H|H]]; discriminate H.
Qed.

(** C7.  At the confirmation the empty answer counts as yes, as do [y] and
    [Y]; every other answer cancels: the tool is not run, "Operation
    cancelled." is printed and the exit code is 0.  So it is for [n]. *)
Theorem confirmation_gate :
  (confirmed "" = true /\ confirmed "y" = true /\ confirmed "Y" = true /\
   confirmed "n" = false) /\
  (forall line,
     confirmed line = true <->
     Str.strip line = "" \/ Str.strip line = "y" \/ Str.strip line = "Y") /\
  (forall w line,
     In (Input confirm_prompt (Some line)) (trace w) ->
     (confirmed line = true -> exists cmd, In (Run cmd) (trace w)) /\
     (confirmed line = false ->
      (forall cmd, ~ In (Run cmd) (trace w)) /\
      In (Print "Operation cancelled.") (trace w) /\
      status w = Exit 0 /\ exit_code (status w) = Some 0)).
Proof.
  split; [repeat split; reflexivity|]. split; [exact confirmed_iff|].
  intros w line H. unfold trace, status in *.
  destruct (main_cases w) as [(t & s & Hg & Hm)|(t & job & i & Hg & Hm)];
    rewrite Hm in *; simpl in H;
    pose proof (gather_events w (stdin w)) as Hev; rewrite Hg in Hev;
    simpl in Hev; rewrite Forall_forall in Hev.
  - destruct (Hev _ H). reflexivity.
  - apply in_app_or in H. destruct H as [H|H]; [destruct (Hev _ H); reflexivity|].
    destruct (run_job_answer _ _ _ _ H) as (rest & ->). split; intros Hc.
    + eexists. cbn [fst]. apply in_or_app. right. now apply run_job_yes.
    + rewrite (run_job_cancel _ _ _ _ Hc). cbn [fst snd final exit_code].
      repeat split.
      * intros cmd Hin. apply in_app_or in Hin. destruct Hin as [Hin|Hin].
        -- exact (Hev _ Hin).
        -- destruct Hin as [Hin|[Hin|[]]]; discriminate Hin.
      * apply in_or_app. right. simpl. auto.
Qed.

Lemma confirmation_gate_witness :
  (forall cmd,
     ~ In (Run cmd) (trace (demo ["010000"; "020000"; "n"] Completed))) /\
  In (Print "Operation cancelled.")
     (trace (demo ["010000"; "020000"; "n"] Completed)) /\
  status (demo ["010000"; "020000"; "n"] Completed) = Exit 0 /\
  exit_code (status (demo ["010000"; "020000"; "n"] Completed)) = Some 0.
Proof.
  apply (proj2 (proj2 confirmation_gate) (demo ["010000"; "020000"; "n"] Completed) "n").
  - vm_compute. tauto.
  - reflexivity.
Defined.

(* ================================================================= *)
(** ** A failing tool *)



(* ================================================================= *)
(** ** The negative start time *)

(** C9.  Every value [parse_time] returns is non-negative, so the branch
    of [main] that rejects a negative start time is never taken: no run
    prints "Error: Start time cannot be negative". *)
Theorem negative_start_unreachable :
  (forall time_str v, parse_time time_str = Ok v -> 0 <= v) /\
  (forall time_str v, parse_time time_str = Ok v -> (v <? 0) = false) /\
  negative_start = "Error: Start time cannot be negative" /\
  (forall w, ~ In (Print negative_start) (trace w)).
Proof.
  split; [|split; [|split; [reflexivity|]]].
  - intros time_str v H. now apply (parse_time_range time_str).
  - intros time_str v H. apply Z.ltb_ge. now apply (parse_time_range time_str).
  - intros w H. unfold trace in H.
    pose proof (gather_events w (stdin w)) as Hev.
    rewrite Forall_forall in Hev.
    destruct (main_cases w) as [(t & s & Hg & Hm)|(t & job & i & Hg & Hm)];
      rewrite Hm in H; rewrite Hg in Hev; simpl in H, Hev.
    + now apply (Hev _ H).
    + apply in_app_or in H. destruct H as [H|H].
      * now apply (Hev _ H).
      * exact (run_job_no_negative _ _ _ H).
Qed.

Lemma negative_start_unreachable_witness : 0 <= 5565 /\ (5565 <? 0) = false.
Proof.
  destruct negative_start_unreachable as (H1 & H2 & _).
  split; [apply (H1 "013245") | apply (H2 "013245")]; reflexivity.
Defined.

(* ================================================================= *)
(** ** The command line *)

(** C2.  The command line has [-ss] with the formatted start time before
    [-i] and the input, and [-t] after the input with the formatted
    duration, which is the end minus the start and not the end.  Every
    command a run starts is built this way from the two values
    [parse_time] gave for the lines typed.  For start ["45"] and end
    ["0130"] (90 seconds) both arguments are ["00:00:45.000"]. *)
Theorem ffmpeg_cmd_duration :
  (forall w input start_time end_time output,
     ffmpeg_cmd w input start_time end_time output =
       [ffmpeg_exe w; "-ss"; format_time (PyInt start_time);
        "-i"; input; "-t"; format_time (PyInt (end_time - start_time));
        "-c"; "copy"; "-map"; "0"; "-avoid_negative_ts"; "make_zero";
        output; "-y"]) /\
  (forall w cmd,
     In (Run cmd) (trace w) ->
     exists start_line end_line start_time end_time output,
       In (Input start_prompt (Some start_line)) (trace w) /\
       In (Input end_prompt (Some end_line)) (trace w) /\
       parse_time (Str.strip start_line) = Ok start_time /\
       parse_time (Str.strip end_line) = Ok end_time /\
       cmd = [ffmpeg_exe w; "-ss"; format_time (PyInt start_time);
              "-i"; path_str w (nth 1 (argv w) "");
              "-t"; format_time (PyInt (end_time - start_time));
              "-c"; "copy"; "-map"; "0"; "-avoid_negative_ts"; "make_zero";
              output; "-y"]) /\
  (parse_time "45" = Ok 45 /\ parse_time "0130" = Ok 90 /\
   format_time (PyInt 45) = "00:00:45.000" /\
   format_time (PyInt (90 - 45)) = "00:00:45.000" /\
   format_time (PyInt 90) = "00:01:30.000" /\
   In (Run ["ffmpeg"; "-ss"; "00:00:45.000"; "-i"; "/videos/clip.mp4";
            "-t"; "00:00:45.000"; "-c"; "copy"; "-map"; "0";
            "-avoid_negative_ts"; "make_zero";
            "/opt/mkvcut/clip_45_0130.mp4"; "-y"])
      (trace (demo ["45"; "0130"; ""; ""] Completed))).
Proof.
  split; [reflexivity|]. split.
  - intros w cmd Hrun.
    destruct (main_run _ _ Hrun) as (t & job & line & rest & Hg & Hc & Hcmd & Hm).
    destruct (gather_done _ _ _ _ _ Hg)
      as (ls & le & k & Hls & Hle & _ & _ & Hps & Hpe & _ & Hin & _).
    exists ls, le, (start_time job), (end_time job), (output_path job).
    unfold trace. rewrite Hm. cbn [fst]. rewrite !in_app_iff.
    repeat split; auto. rewrite Hcmd, <- Hin. reflexivity.
  - repeat split; try reflexivity. vm_compute. tauto.
Qed.

Lemma ffmpeg_cmd_duration_witness :
  exists start_line end_line start_time end_time output,
    parse_time (Str.strip start_line) = Ok start_time /\
    parse_time (Str.strip end_line) = Ok end_time /\
    ffmpeg_cmd (demo [" 45"; "0130 "; "y"; ""] FileNotFoundError)
      "/videos/clip.mp4" 45 90 "/opt/mkvcut/clip_45_0130.mp4" =
      [ffmpeg_exe (demo [" 45"; "0130 "; "y"; ""] FileNotFoundError);
       "-ss"; format_time (PyInt start_time);
       "-i"; "/videos/clip.mp4";
       "-t"; format_time (PyInt (end_time - start_time));
       "-c"; "copy"; "-map"; "0"; "-avoid_negative_ts"; "make_zero";
       output; "-y"].
Proof.
  pose (w := demo [" 45"; "0130 "; "y"; ""] FileNotFoundError).
  assert (Hrun : In (Run (ffmpeg_cmd w "/videos/clip.mp4" 45 90
                            "/opt/mkvcut/clip_45_0130.mp4")) (trace w))
    by (vm_compute; tauto).
  destruct (proj1 (proj2 ffmpeg_cmd_duration) w _ Hrun)
    as (ls & le & st & en & out & _ & _ & Hs & He & Hcmd).
  exists ls, le, st, en, out. repeat split; assumption.
Defined.

(* ================================================================= *)
(** ** The text in the file name *)

(** C6.  The output file name is built from the text the user typed for
    the start and the end, stripped of surrounding whitespace, and not
    from the values parsed: ["0132"] and ["000132"] parse to the same
    time code and give different file names. *)
Theorem output_name_raw_text :
  (forall w cmd,
     In (Run cmd) (trace w) ->
     exists start_line end_line counter,
       In (Input start_prompt (Some start_line)) (trace w) /\
       In (Input end_prompt (Some end_line)) (trace w) /\
       nth 13 cmd "" =
         base_path w ++ sep w
         ++ output_name (path_stem w (nth 1 (argv w) ""))
              (Str.strip start_line) (Str.strip end_line)
              (path_suffix w (nth 1 (argv w) "")) counter /\
       In (Print ("Output file: " ++ nth 13 cmd "" ++ nl)) (trace w)) /\
  (forall stem s e suffix,
     output_name stem s e suffix None = stem ++ "_" ++ s ++ "_" ++ e ++ suffix) /\
  (parse_time "0132" = Ok 92 /\ parse_time "000132" = Ok 92) /\
  (forall stem e suffix c c',
     output_name stem "0132" e suffix c <> output_name stem "000132" e suffix c') /\
  (In (Print ("Output file: /opt/mkvcut/clip_0132_0200.mp4" ++ nl))
      (trace (demo [" 0132 "; "0200"; "n"] Completed)) /\
   In (Print ("Output file: /opt/mkvcut/clip_000132_0200.mp4" ++ nl))
      (trace (demo ["000132"; "0200"; "n"] Completed))).
Proof.
  split; [|split; [reflexivity|split; [split; reflexivity|split]]].
  - intros w cmd Hrun.
    destruct (main_run _ _ Hrun) as (t & job & line & rest & Hg & Hc & Hcmd & Hm).
    destruct (gather_done _ _ _ _ _ Hg)
      as (ls & le & k & Hls & Hle & _ & _ & _ & _ & _ & _ & Hout & _ & Hpr).
    exists ls, le, (match k with O => None | S _ => Some k end).
    assert (Hnth : nth 13 cmd "" = output_path job) by (rewrite Hcmd; reflexivity).
    unfold trace. rewrite Hm. cbn [fst]. rewrite !in_app_iff, Hnth.
    repeat split; auto.
  - intros stem e suffix c c' H. unfold output_name in H.
    destruct c, c'; do 2 apply append_inv_head in H; simpl in H; discriminate H.
  - split; vm_compute; tauto.
Qed.

Lemma output_name_raw_text_witness :
  exists start_line end_line counter,
    nth 13 (ffmpeg_cmd (demo [" 0132 "; "0200"; ""; ""] Completed)
              "/videos/clip.mp4" 92 120 "/opt/mkvcut/clip_0132_0200.mp4") "" =
      "/opt/mkvcut" ++ "/"
      ++ output_name "clip" (Str.strip start_line) (Str.strip end_line)
           ".mp4" counter.
Proof.
  pose (w := demo [" 0132 "; "0200"; ""; ""] Completed).
  assert (Hrun : In (Run (ffmpeg_cmd w "/videos/clip.mp4" 92 120
                            "/opt/mkvcut/clip_0132_0200.mp4")) (trace w))
    by (vm_compute; tauto).
  destruct (proj1 output_name_raw_text w _ Hrun)
    as (ls & le & c & _ & _ & Hn & _).
  exists ls, le, c. exact Hn.
Defined.

(* ================================================================= *)
(** ** Decimal numerals *)



Lemma decimal_string_of_uint d acc :
  Spec.decimal (NilEmpty.string_of_uint d) (Z.of_nat acc) =
    Z.of_nat (Nat.of_uint_acc d acc).
Proof.
  revert acc.
  induction d; intros acc;
    cbn [NilEmpty.string_of_uint Spec.decimal Nat.of_uint_acc];
    [reflexivity| ..];
    rewrite <- IHd; f_equal; rewrite Nat.tail_mul_spec;
    match goal with
    | |- context [Char.digit_value ?c] =>
        let v := eval vm_compute in (Char.digit_value c) in
        change (Char.digit_value c) with v
    end; lia.
Qed.

(** Reading back what [str] wrote. *)
Lemma decimal_of_nat n : Spec.decimal (Str.of_nat n) 0 = Z.of_nat n.
Proof.
  unfold Str.of_nat. change 0 with (Z.of_nat 0).
  rewrite decimal_string_of_uint. f_equal. apply Unsigned.of_to.
Qed.

Lemma of_nat_nonempty n : (1 <= length (Str.of_nat n))%nat.
Proof.
  destruct (Str.of_nat n) eqn:E; simpl; [|lia].
  pose proof (decimal_of_nat n) as H. rewrite E in H. simpl in H.
  destruct n; [discriminate E | lia].
Qed.

(** The number of digits of a number below 1000. *)
Lemma of_nat_length n :
  (n < 1000)%nat ->
  length (Str.of_nat n) =
    if (n <? 10)%nat then 1%nat else if (n <? 100)%nat then 2%nat else 3%nat.
Proof.
  intros H.
  assert (Hall : List.forallb
            (fun k => Nat.eqb (length (Str.of_nat k))
                        (if (k <? 10)%nat then 1 else if (k <? 100)%nat then 2 else 3))
            (seq 0 1000) = true) by (vm_compute; reflexivity).
  rewrite forallb_forall in Hall.
  apply Nat.eqb_eq, Hall, in_seq. lia.
Qed.

(* ================================================================= *)
(** ** Zero padding *)



Lemma zero_pad_length w body :
  length (zero_pad w "" body) = Nat.max w (length body).
Proof.
  unfold zero_pad. simpl. rewrite length_append, length_zeros. lia.
Qed.


(* ================================================================= *)
(** ** Rationals: remainders and rounding *)




Lemma round_half_even_comp x y :
  (x == y)%Q -> round_half_even x = round_half_even y.
Proof.
  intros H. unfold round_half_even.
  rewrite (Qfloor_comp _ _ H).
  assert (Hc : Qcompare (x - inject_Z (Qfloor y)) (1 # 2) =
               Qcompare (y - inject_Z (Qfloor y)) (1 # 2)).
  { apply Qcompare_comp; [rewrite H|]; reflexivity. }
  now rewrite Hc.
Qed.

Lemma round_half_even_int k : round_half_even (inject_Z k) = k.
Proof.
  unfold round_half_even. rewrite Qfloor_Z.
  assert (Hc : Qcompare (inject_Z k - inject_Z k) (1 # 2) = Lt).
  { rewrite <- Qlt_alt. lra. }
  now rewrite Hc.
Qed.

Lemma thousandths_int s : 0 <= s -> thousandths (inject_Z s) = 1000 * s.
Proof.
  intros Hs. unfold thousandths.
  rewrite (round_half_even_comp _ (inject_Z (1000 * s))).
  - apply round_half_even_int.
  - rewrite Qabs_pos.
    + rewrite inject_Z_mult. change (inject_Z 1000) with 1000%Q. ring.
    + change 0%Q with (inject_Z 0). now rewrite <- Zle_Qle.
Qed.





(* ================================================================= *)
(** ** The text of a time *)

(** The seconds field: two digits, a point, three digits. *)
Lemma seconds_field n :
  0 <= n <= 60000 ->
  zero_pad 6 ""
    (Str.of_nat (Z.to_nat (n / 1000)) ++ "."
     ++ zero_pad 3 "" (Str.of_nat (Z.to_nat (n mod 1000))))
  = zero_pad 2 "" (Str.of_nat (Z.to_nat (n / 1000))) ++ "."
    ++ zero_pad 3 "" (Str.of_nat (Z.to_nat (n mod 1000))) /\
  length (zero_pad 2 "" (Str.of_nat (Z.to_nat (n / 1000)))) = 2%nat /\
  length (zero_pad 3 "" (Str.of_nat (Z.to_nat (n mod 1000)))) = 3%nat.
Proof.
  intros Hn.
  assert (Ha : (Z.to_nat (n / 1000) < 100)%nat).
  { assert (n / 1000 < 100) by (apply Z.div_lt_upper_bound; lia). lia. }
  assert (Hb : (Z.to_nat (n mod 1000) < 1000)%nat).
  { pose proof (Z.mod_pos_bound n 1000 ltac:(lia)). lia. }
  assert (Hla : length (zero_pad 2 "" (Str.of_nat (Z.to_nat (n / 1000)))) = 2%nat).
  { rewrite zero_pad_length, of_nat_length by lia.
    destruct (_ <? 10)%nat; [reflexivity|].
    destruct (_ <? 100)%nat eqn:E; [reflexivity|]. apply Nat.ltb_ge in E. lia. }
  assert (Hlb : length (zero_pad 3 "" (Str.of_nat (Z.to_nat (n mod 1000)))) = 3%nat).
  { rewrite zero_pad_length, of_nat_length by lia.
    destruct (_ <? 10)%nat; [reflexivity|].
    destruct (_ <? 100)%nat; reflexivity. }
  split; [|now split].
  set (b := zero_pad 3 "" _) in *.
  unfold zero_pad at 1 2. cbn [append length Nat.sub].
  rewrite length_append. cbn [length]. rewrite Hlb, of_nat_length by lia.
  destruct (_ <? 10)%nat; [reflexivity|].
  destruct (_ <? 100)%nat eqn:E; [reflexivity|]. apply Nat.ltb_ge in E. lia.
Qed.




(* ================================================================= *)
(** * Further properties of the code *)

(** ** [parse_time]: what it accepts, whitespace, leading zeros, order *)

(** X1.  [parse_time] returns a value exactly for the inputs that, once
    stripped, are 1 to 6 decimal digits; every other input raises. *)
Theorem parse_time_accepts_iff time_str :
  (exists v, parse_time time_str = Ok v) <->
  Str.forallb Char.isdecimal (Str.strip time_str) = true /\
  (1 <= length (Str.strip time_str) <= 6)%nat.
Proof.
  split.
  - intros [v H]. exact (parse_time_accepts _ _ H).
  - intros [Hdec Hl]. eexists. now apply parse_time_value.
Qed.

Lemma rstrip_idempotent s : Str.rstrip (Str.rstrip s) = Str.rstrip s.
Proof.
  induction s as [|c r IH]; simpl; [reflexivity|].
  destruct (Str.rstrip r) as [|c' r'] eqn:E.
  - destruct (Char.isspace c) eqn:Ec; simpl; [reflexivity|]. now rewrite Ec.
  - change (Str.rstrip (String c (String c' r')) = String c (String c' r')).
    cbn [Str.rstrip]. cbn [Str.rstrip] in IH. rewrite IH. reflexivity.
Qed.

Lemma lstrip_idempotent s : Str.lstrip (Str.lstrip s) = Str.lstrip s.
Proof.
  induction s as [|c r IH]; simpl; [reflexivity|].
  destruct (Char.isspace c) eqn:Ec; [exact IH|]. simpl. now rewrite Ec.
Qed.

(** Stripping on the left keeps a string that is stripped on the right
    stripped on the right. *)
Lemma rstrip_lstrip t : Str.rstrip t = t -> Str.rstrip (Str.lstrip t) = Str.lstrip t.
Proof.
  induction t as [|c r IH]; intros H; [reflexivity|].
  cbn [Str.lstrip]. destruct (Char.isspace c) eqn:Ec; [|exact H].
  apply IH. cbn [Str.rstrip] in H. rewrite Ec in H.
  destruct (Str.rstrip r) as [|c' r'] eqn:E; [discriminate H|].
  now injection H.
Qed.

Lemma strip_idempotent s : Str.strip (Str.strip s) = Str.strip s.
Proof.
  unfold Str.strip.
  rewrite (rstrip_lstrip _ (rstrip_idempotent s)). apply lstrip_idempotent.
Qed.

(** X2.  Whitespace around the input does not count: [parse_time] gives
    the same result, value or error, on a line and on the stripped line
    that [main] passes to it. *)
Theorem parse_time_strip time_str :
  parse_time (Str.strip time_str) = parse_time time_str.
Proof. unfold parse_time. now rewrite strip_idempotent. Qed.

Lemma forallb_impl (p q : ascii -> bool) s :
  (forall c, p c = true -> q c = true) ->
  Str.forallb p s = true -> Str.forallb q s = true.
Proof.
  intros Hpq. induction s as [|c r IH]; simpl; [reflexivity|].
  intros H. apply andb_true_iff in H. destruct H as [H1 H2].
  now rewrite (Hpq _ H1), IH.
Qed.

Lemma rstrip_no_space s :
  Str.forallb (fun c => negb (Char.isspace c)) s = true -> Str.rstrip s = s.
Proof.
  induction s as [|c r IH]; simpl; [reflexivity|].
  intros H. apply andb_true_iff in H. destruct H as [H1 H2].
  rewrite (IH H2). apply negb_true_iff in H1. rewrite H1.
  destruct r; reflexivity.
Qed.

Lemma lstrip_no_space s :
  Str.forallb (fun c => negb (Char.isspace c)) s = true -> Str.lstrip s = s.
Proof.
  destruct s as [|c r]; simpl; [reflexivity|].
  intros H. apply andb_true_iff in H. destruct H as [H1 _].
  apply negb_true_iff in H1. now rewrite H1.
Qed.

(** A string of digits has nothing to strip. *)
Lemma strip_digits s : Str.forallb Char.isdigit s = true -> Str.strip s = s.
Proof.
  intros H.
  assert (Hn : Str.forallb (fun c => negb (Char.isspace c)) s = true).
  { revert H. apply forallb_impl. intros c Hc.
    now rewrite (isdigit_not_space _ Hc). }
  unfold Str.strip. rewrite (rstrip_no_space _ Hn). now apply lstrip_no_space.
Qed.

Lemma pad6_pad6 digits :
  (length digits <= 6)%nat -> Spec.pad6 (Spec.pad6 digits) = Spec.pad6 digits.
Proof.
  intros H. unfold Spec.pad6 at 1.
  assert (Hl : length (Spec.pad6 digits) = 6%nat).
  { unfold Spec.pad6. rewrite length_append, length_zeros. lia. }
  rewrite Hl. reflexivity.
Qed.

(** X3.  Leading zeros do not count: a string of 1 to 6 decimal digits and
    the same string filled with zeros to the six characters of HHMMSS
    parse to the same value. *)
Theorem parse_time_zfill digits :
  Str.forallb Char.isdecimal digits = true ->
  (1 <= length digits <= 6)%nat ->
  parse_time (Str.zfill 6 digits) = parse_time digits /\
  length (Str.zfill 6 digits) = 6%nat.
Proof.
  intros Hdec Hl.
  pose proof (forallb_decimal_digit _ Hdec) as Hdig.
  rewrite (zfill_digits 6 _ Hdig). fold (Spec.pad6 digits).
  assert (Hpdec : Str.forallb Char.isdecimal (Spec.pad6 digits) = true).
  { unfold Spec.pad6. rewrite forallb_app, Hdec. now rewrite forallb_zeros. }
  assert (Hplen : length (Spec.pad6 digits) = 6%nat).
  { unfold Spec.pad6. rewrite length_append, length_zeros. lia. }
  split; [|exact Hplen].
  pose proof (strip_digits _ Hdig) as Hs.
  pose proof (strip_digits _ (forallb_decimal_digit _ Hpdec)) as Hps.
  rewrite (parse_time_value (Spec.pad6 digits)) by (rewrite Hps; first [assumption | lia]).
  rewrite (parse_time_value digits) by (rewrite Hs; assumption).
  rewrite Hs, Hps. unfold Spec.total_seconds, Spec.hours, Spec.minutes, Spec.seconds.
  now rewrite pad6_pad6 by lia.
Qed.

Lemma parse_time_zfill_witness :
  parse_time (Str.zfill 6 "130") = parse_time "130" /\
  length (Str.zfill 6 "130") = 6%nat.
Proof. apply (parse_time_zfill "130"); [reflexivity | simpl; lia]. Defined.

(** X4.  On time codes whose minutes and seconds are below 60 the value
    orders as the digits do: the later code, read as a decimal number, has
    the greater number of seconds.  The end-after-start test of [main]
    relies on it. *)
Theorem parse_time_monotone s1 s2 v1 v2 :
  parse_time s1 = Ok v1 -> parse_time s2 = Ok v2 ->
  canonical (Str.strip s1) -> canonical (Str.strip s2) ->
  (v1 < v2 <-> Spec.decimal (Str.strip s1) 0 < Spec.decimal (Str.strip s2) 0).
Proof.
  intros H1 H2 [Hm1 Hs1] [Hm2 Hs2].
  destruct (parse_time_accepts _ _ H1) as [Hd1 Hl1].
  destruct (parse_time_accepts _ _ H2) as [Hd2 Hl2].
  rewrite (parse_time_value _ Hd1 Hl1) in H1. injection H1 as <-.
  rewrite (parse_time_value _ Hd2 Hl2) in H2. injection H2 as <-.
  rewrite (decimal_groups (Str.strip s1)), (decimal_groups (Str.strip s2)) by lia.
  destruct (total_seconds_range _ Hd1 (proj2 Hl1)) as (? & ? & ?).
  destruct (total_seconds_range _ Hd2 (proj2 Hl2)) as (? & ? & ?).
  unfold Spec.total_seconds. lia.
Qed.

Lemma parse_time_monotone_witness :
  5999 < 6000 <-> Spec.decimal (Str.strip "013959") 0 < Spec.decimal (Str.strip "014000") 0.
Proof.
  apply (parse_time_monotone "013959" "014000"); try reflexivity;
    split; vm_compute; reflexivity.
Defined.

(* ================================================================= *)
(** ** [format_time] on whole seconds *)

(** The text for a whole number of seconds. *)
Lemma format_time_int z :
  0 <= z ->
  format_time (PyInt z) =
    format_02d (z / 3600) ++ ":" ++ format_02d (z mod 3600 / 60) ++ ":"
    ++ format_02d (z mod 60) ++ ".000".
Proof.
  intros Hz. unfold format_time. cbn [floordiv pymod to_int].
  do 4 f_equal.
  pose proof (Z.mod_pos_bound z 60 ltac:(lia)) as Hs.
  unfold format_06_3f, fixed3. cbn [to_float].
  rewrite thousandths_int by lia. simpl Qnum.
  destruct (Z.ltb_spec (z mod 60) 0); [lia|].
  destruct (seconds_field (1000 * (z mod 60)) ltac:(lia)) as (Hf & _ & _).
  rewrite Hf.
  replace (1000 * (z mod 60) / 1000) with (z mod 60)
    by (apply Z.div_unique with (r := 0); lia).
  replace (1000 * (z mod 60) mod 1000) with 0
    by (apply Z.mod_unique with (q := z mod 60); lia).
  unfold format_02d. destruct (Z.ltb_spec (z mod 60) 0); [lia|].
  rewrite Zabs2Nat.abs_nat_nonneg by lia. reflexivity.
Qed.

(** Two decimal digits are the ['02d'] text of their value. *)
Lemma format_02d_pair a b :
  Char.isdecimal a = true -> Char.isdecimal b = true ->
  format_02d (10 * Char.digit_value a + Char.digit_value b) = pair_string a b.
Proof.
  intros Ha Hb.
  destruct a as [[] [] [] [] [] [] [] []]; vm_compute in Ha; try discriminate Ha;
    destruct b as [[] [] [] [] [] [] [] []]; vm_compute in Hb; try discriminate Hb;
    vm_compute; reflexivity.
Qed.

(** X5.  Round trip: for an accepted time code typed in the ASCII digits
    0 to 9 whose minutes and seconds are below 60, [format_time] of the
    parsed value shows the digits of the code, padded to HHMMSS, two by
    two: [HH:MM:SS.000].  (The decimal digits of other scripts, which [int]
    accepts as well, are printed in ASCII and not as typed.) *)
Theorem format_parse_round_trip time_str v :
  parse_time time_str = Ok v ->
  Str.forallb ascii_digit (Str.strip time_str) = true ->
  canonical (Str.strip time_str) ->
  format_time (PyInt v) =
    substring 0 2 (Spec.pad6 (Str.strip time_str)) ++ ":"
    ++ substring 2 2 (Spec.pad6 (Str.strip time_str)) ++ ":"
    ++ substring 4 2 (Spec.pad6 (Str.strip time_str)) ++ ".000".
Proof.
  intros Hp Hdec [Hm Hs].
  destruct (parse_time_accepts _ _ Hp) as [_ Hl].
  change (Str.forallb Char.isdecimal (Str.strip time_str) = true) in Hdec.
  rewrite (parse_time_value _ Hdec Hl) in Hp. injection Hp as <-.
  destruct (padded_six _ (proj2 Hl)) as (a & b & c & d & e & f & Hpad).
  fold (Spec.pad6 (Str.strip time_str)) in Hpad.
  destruct (padded_decimals _ _ _ _ _ _ _ Hdec Hpad)
    as (Ha & Hb & Hc & Hd & He & Hf).
  unfold Spec.total_seconds.
  unfold Spec.hours, Spec.minutes, Spec.seconds, Spec.group in *.
  rewrite Hpad in *. cbn [Spec.decimal substring] in *.
  pose proof (digit_value_range _ Ha) as Ra.
  pose proof (digit_value_range _ Hb) as Rb.
  pose proof (digit_value_range _ Hc) as Rc.
  pose proof (digit_value_range _ Hd) as Rd.
  pose proof (digit_value_range _ He) as Re.
  pose proof (digit_value_range _ Hf) as Rf.
  rewrite !Z.mul_0_r, !Z.add_0_l in *.
  set (hv := 10 * Char.digit_value a + Char.digit_value b) in *.
  set (mv := 10 * Char.digit_value c + Char.digit_value d) in *.
  set (sv := 10 * Char.digit_value e + Char.digit_value f) in *.
  assert (H0 : 0 <= hv) by (unfold hv; lia).
  assert (M0 : 0 <= mv) by (unfold mv; lia).
  assert (S0 : 0 <= sv) by (unfold sv; lia).
  rewrite format_time_int by lia.
  replace ((hv * 3600 + mv * 60 + sv) / 3600) with hv
    by (apply Z.div_unique with (r := mv * 60 + sv); lia).
  replace ((hv * 3600 + mv * 60 + sv) mod 3600) with (mv * 60 + sv)
    by (apply Z.mod_unique with (q := hv); lia).
  replace ((mv * 60 + sv) / 60) with mv
    by (apply Z.div_unique with (r := sv); lia).
  replace ((hv * 3600 + mv * 60 + sv) mod 60) with sv
    by (apply Z.mod_unique with (q := hv * 60 + mv); lia).
  unfold hv, mv, sv.
  rewrite !format_02d_pair by assumption. reflexivity.
Qed.

Lemma format_parse_round_trip_witness :
  format_time (PyInt 92) =
    substring 0 2 (Spec.pad6 (Str.strip " 132")) ++ ":"
    ++ substring 2 2 (Spec.pad6 (Str.strip " 132")) ++ ":"
    ++ substring 4 2 (Spec.pad6 (Str.strip " 132")) ++ ".000".
Proof.
  apply (format_parse_round_trip " 132" 92); [reflexivity | reflexivity |].
  split; vm_compute; reflexivity.
Defined.



(* ================================================================= *)
(** ** [main]: the checks, the exit status *)

Lemma main_stop w t s :
  gather w (stdin w) = (t, Stop s) -> main w = (t, s).
Proof. unfold main, main_body, bind. intros ->. reflexivity. Qed.

Lemma bind_stop {A B} (m : M A) (f : A -> M B) i t s :
  bind m f i = (t, Stop s) ->
  m i = (t, Stop s) \/
  exists t1 a i1 t2,
    m i = (t1, Done a i1) /\ f a i1 = (t2, Stop s) /\ t = (t1 ++ t2)%list.
Proof.
  unfold bind. destruct (m i) as [t1 [a i1|s1]].
  - destruct (f a i1) as [t2 r] eqn:E. intros H. injection H as <- ->.
    right. now exists t1, a, i1, t2.
  - intros H. injection H as <- <-. now left.
Qed.

(** A run that fails one of the checks: some messages, the pause, exit 1. *)
Lemma gather_invalid w i :
  valid_invocation w = false ->
  exists messages,
    gather w i =
      ((map Print messages ++ [Input pause_prompt (hd_error i)])%list,
       Stop match i with
            | [] => Uncaught "EOFError"
            | _ :: _ => Exit 1
            end).
Proof.
  unfold valid_invocation, gather. intros H.
  destruct (Nat.ltb_spec (List.length (argv w)) 2) as [Hl|Hl].
  - eexists [_; _]. destruct i; reflexivity.
  - assert (Hle : (2 <=? List.length (argv w))%nat = true) by now apply Nat.leb_le.
    rewrite Hle in H. cbn [andb] in H.
    destruct (path_exists w (nth 1 (argv w) "")); cbn [andb negb] in *.
    + rewrite H. cbn [negb]. eexists [_]. destruct i; reflexivity.
    + eexists [_]. destruct i; reflexivity.
Qed.

Lemma path_exists_lookup w p :
  path_exists w p = true -> exists st, lookup p (files w) = Some st.
Proof. unfold path_exists. destruct (lookup p (files w)); [eauto|discriminate]. Qed.

Lemma start_loop_stop lines t s :
  start_loop lines = (t, Stop s) -> s = Uncaught "EOFError".
Proof.
  revert t. induction lines as [|l lines IH]; intros t; simpl.
  - intros H. now injection H.
  - unfold after.
    destruct (parse_time (Str.strip l)) as [x|e]; simpl.
    + destruct (x <? 0); simpl.
      * destruct (start_loop lines) as [t' r]. simpl. intros H.
        injection H as _ ->. now apply (IH t').
      * discriminate.
    + destruct (start_loop lines) as [t' r]. simpl. intros H.
      injection H as _ ->. now apply (IH t').
Qed.

Lemma end_loop_stop start_time lines t s :
  end_loop start_time lines = (t, Stop s) -> s = Uncaught "EOFError".
Proof.
  revert t. induction lines as [|l lines IH]; intros t; simpl.
  - intros H. now injection H.
  - unfold after.
    destruct (parse_time (Str.strip l)) as [x|e]; simpl.
    + destruct (x <=? start_time); simpl.
      * destruct (end_loop start_time lines) as [t' r]. simpl. intros H.
        injection H as _ ->. now apply (IH t').
      * discriminate.
    + destruct (end_loop start_time lines) as [t' r]. simpl. intros H.
      injection H as _ ->. now apply (IH t').
Qed.

(** Past the checks, only the end of the input stops the first part. *)
Lemma gather_valid_stop w i t s :
  valid_invocation w = true ->
  gather w i = (t, Stop s) -> s = Uncaught "EOFError".
Proof.
  unfold valid_invocation, gather. intros H.
  apply andb_true_iff in H. destruct H as [H Hf].
  apply andb_true_iff in H. destruct H as [Hl He].
  apply Nat.leb_le in Hl.
  destruct (Nat.ltb_spec (List.length (argv w)) 2); [lia|].
  rewrite He, Hf. cbn [negb].
  destruct (path_exists_lookup _ _ He) as [st ->].
  intros Hg.
  apply bind_stop in Hg. destruct Hg as [Hg|(t1 & [] & i1 & t1' & _ & Hg & _)];
    [discriminate Hg|].
  apply bind_stop in Hg. destruct Hg as [Hg|(t2 & [] & i2 & t2' & _ & Hg & _)];
    [discriminate Hg|].
  apply bind_stop in Hg.
  destruct Hg as [Hg|(t3 & [si st'] & i3 & t3' & _ & Hg & _)];
    [exact (start_loop_stop _ _ _ Hg)|].
  apply bind_stop in Hg.
  destruct Hg as [Hg|(t4 & [ei et] & i4 & t4' & _ & Hg & _)];
    [exact (end_loop_stop _ _ _ _ Hg)|].
  apply bind_stop in Hg. destruct Hg as [Hg|(t5 & [] & i5 & t5' & _ & Hg & _)];
    [discriminate Hg|].
  apply bind_stop in Hg. destruct Hg as [Hg|(t6 & [] & i6 & t6' & _ & Hg & _)];
    [discriminate Hg|].
  apply bind_stop in Hg. destruct Hg as [Hg|(t7 & [] & i7 & t7' & _ & Hg & _)];
    [discriminate Hg|].
  destruct (resolve_output_first w (path_stem w (nth 1 (argv w) "")) si ei
              (path_suffix w (nth 1 (argv w) ""))) as (k & Hk & _).
  rewrite Hk in Hg.
  apply bind_stop in Hg. destruct Hg as [Hg|(t8 & [] & i8 & t8' & _ & Hg & _)];
    discriminate Hg.
Qed.

(** The first part ends with a job only past the checks. *)
Lemma gather_done_valid w i t job rest :
  gather w i = (t, Done job rest) -> valid_invocation w = true.
Proof.
  intros H. destruct (valid_invocation w) eqn:E; [reflexivity|].
  destruct (gather_invalid w i E) as (msgs & Hg). rewrite Hg in H.
  destruct i; discriminate H.
Qed.

(** The second part ends by exit 0 or by an exception. *)
Lemma run_job_status w job i :
  final (snd (run_job w job i)) = Exit 0 \/
  exists exn, final (snd (run_job w job i)) = Uncaught exn.
Proof.
  destruct i as [|line rest]; [right; eexists; reflexivity|].
  run_job_unfold. destruct (confirmed line); [|left; reflexivity].
  set (c := ffmpeg_cmd _ _ _ _ _).
  destruct (run_tool w c); [destruct (stat_after w (output_path job))| | |];
    destruct rest; cbn [snd final];
    first [left; reflexivity | right; eexists; reflexivity].
Qed.

(** X7.  A run without an argument, or whose argument is no existing
    regular file, only prints and pauses: it asks for no time, runs no
    tool, and its exit code is 1. *)
Theorem invalid_invocation_exits_1 w :
  valid_invocation w = false ->
  exit_code (status w) = Some 1 /\
  (stdin w <> [] -> status w = Exit 1) /\
  (forall cmd, ~ In (Run cmd) (trace w)) /\
  (forall prompt line, In (Input prompt line) (trace w) -> prompt = pause_prompt) /\
  (exists before, trace w = (before ++ [Input pause_prompt (hd_error (stdin w))])%list).
Proof.
  intros H. destruct (gather_invalid w (stdin w) H) as (msgs & Hg).
  unfold status, trace. rewrite (main_stop _ _ _ Hg). cbn [fst snd].
  split; [destruct (stdin w); reflexivity|].
  split; [destruct (stdin w); [congruence | reflexivity]|].
  split; [|split; [|now exists (map Print msgs)]].
  - intros cmd Hin. apply in_app_or in Hin. destruct Hin as [Hin|[Hin|[]]].
    + apply in_map_iff in Hin. destruct Hin as (m & Hm & _). discriminate Hm.
    + discriminate Hin.
  - intros p l Hin. apply in_app_or in Hin. destruct Hin as [Hin|[Hin|[]]].
    + apply in_map_iff in Hin. destruct Hin as (m & Hm & _). discriminate Hm.
    + now injection Hin.
Qed.

Lemma invalid_invocation_exits_1_witness :
  exit_code (status {| argv := ["mkvCut.py"]; base_path := "/opt/mkvcut";
                       sep := "/"; path_str := fun s => s;
                       path_stem := fun s => s; path_suffix := fun _ => "";
                       files := []; stdin := [""];
                       run_tool := fun _ => Completed;
                       stat_after := fun _ => None |}) = Some 1.
Proof.
  apply invalid_invocation_exits_1. reflexivity.
Defined.

(** X8.  The status of a run.  It is exit 1 exactly when a check fails and
    the pause is answered; no other exit code than 0 and 1 is requested;
    past the checks a run ends by exit 0 or by an exception. *)
Theorem main_exit_status w :
  (status w = Exit 1 <-> valid_invocation w = false /\ stdin w <> []) /\
  (forall code, status w = Exit code -> code = 0 \/ code = 1) /\
  (valid_invocation w = true ->
   status w = Exit 0 \/ exists exn, status w = Uncaught exn).
Proof.
  assert (Hvalid : valid_invocation w = true ->
                   status w = Exit 0 \/ exists exn, status w = Uncaught exn).
  { intros Hv. unfold status.
    destruct (main_cases w) as [(t & s & Hg & Hm)|(t & job & i & Hg & Hm)];
      rewrite Hm; cbn [snd].
    - right. rewrite (gather_valid_stop _ _ _ _ Hv Hg). now eexists.
    - apply run_job_status. }
  assert (Hinvalid : valid_invocation w = false ->
                     status w = match stdin w with
                                | [] => Uncaught "EOFError"
                                | _ :: _ => Exit 1
                                end).
  { intros Hv. destruct (gather_invalid w (stdin w) Hv) as (msgs & Hg).
    unfold status. rewrite (main_stop _ _ _ Hg). destruct (stdin w); reflexivity. }
  destruct (valid_invocation w) eqn:Hv.
  - destruct (Hvalid eq_refl) as [E|[exn E]]; rewrite E.
    + repeat split; try discriminate; try (intros [? _]; discriminate).
      * intros code Hc. injection Hc as <-. now left.
      * now left.
    + repeat split; try discriminate; try (intros [? _]; discriminate).
      right. now exists exn.
  - rewrite (Hinvalid eq_refl). destruct (stdin w) as [|l rest].
    + repeat split; try discriminate; try (intros [_ ?]; congruence).
    + repeat split; try discriminate.
      intros code Hc. injection Hc as <-. now right.
Qed.

Lemma main_exit_status_witness :
  status (demo ["45"; "0130"; "y"; ""] (CalledProcessError "")) = Exit 0 \/
  exists exn, status (demo ["45"; "0130"; "y"; ""] (CalledProcessError "")) = Uncaught exn.
Proof.
  apply (proj2 (proj2 (main_exit_status _))). reflexivity.
Defined.

(* ================================================================= *)
(** ** [main]: what reaches the tool *)

(** X9.  The tool is only ever started on a cut that is not empty: the
    start is not negative, the end is after the start, and so the duration
    given with [-t] is at least one second (and at most 362439). *)
Theorem run_has_positive_duration w cmd :
  In (Run cmd) (trace w) ->
  exists start_time end_time,
    0 <= start_time /\ start_time < end_time /\ end_time <= 362439 /\
    1 <= end_time - start_time <= 362439 /\
    nth 2 cmd "" = format_time (PyInt start_time) /\
    nth 6 cmd "" = format_time (PyInt (end_time - start_time)).
Proof.
  intros Hrun.
  destruct (main_run _ _ Hrun) as (t & job & line & rest & Hg & _ & Hcmd & _).
  destruct (gather_done _ _ _ _ _ Hg)
    as (ls & le & k & _ & _ & _ & _ & Hps & Hpe & Hlt & _).
  pose proof (parse_time_range _ _ Hps). pose proof (parse_time_range _ _ Hpe).
  exists (start_time job), (end_time job). rewrite Hcmd.
  repeat split; try reflexivity; lia.
Qed.

Lemma run_has_positive_duration_witness :
  exists start_time end_time,
    0 <= start_time /\ start_time < end_time /\
    nth 6 (ffmpeg_cmd (demo ["45"; "30"; "0130"; "y"; ""] Completed)
             "/videos/clip.mp4" 45 90 "/opt/mkvcut/clip_45_0130.mp4") "" =
      format_time (PyInt (end_time - start_time)).
Proof.
  pose (w := demo ["45"; "30"; "0130"; "y"; ""] Completed).
  assert (Hrun : In (Run (ffmpeg_cmd w "/videos/clip.mp4" 45 90
                            "/opt/mkvcut/clip_45_0130.mp4")) (trace w))
    by (vm_compute; tauto).
  destruct (run_has_positive_duration w _ Hrun)
    as (st & en & H0 & H1 & _ & _ & _ & H2).
  exists st, en. repeat split; assumption.
Defined.

(** X10.  The tool is only ever started past the checks, on the argument
    of the command line, which names an existing regular file, and with an
    output path that did not exist when it was chosen. *)
Theorem run_on_checked_paths w cmd :
  In (Run cmd) (trace w) ->
  (2 <= List.length (argv w))%nat /\
  path_exists w (nth 1 (argv w) "") = true /\
  path_is_file w (nth 1 (argv w) "") = true /\
  nth 4 cmd "" = path_str w (nth 1 (argv w) "") /\
  path_exists w (nth 13 cmd "") = false.
Proof.
  intros Hrun.
  destruct (main_run _ _ Hrun) as (t & job & line & rest & Hg & _ & Hcmd & _).
  pose proof (gather_done_valid _ _ _ _ _ Hg) as Hv.
  destruct (gather_done _ _ _ _ _ Hg)
    as (ls & le & k & _ & _ & _ & _ & _ & _ & _ & Hin & _ & Hfresh & _).
  unfold valid_invocation in Hv.
  apply andb_true_iff in Hv. destruct Hv as [Hv Hf].
  apply andb_true_iff in Hv. destruct Hv as [Hl He].
  apply Nat.leb_le in Hl. rewrite Hcmd.
  repeat split; assumption.
Qed.

Lemma run_on_checked_paths_witness :
  path_exists (demo ["010000"; "020000"; ""; ""] Completed)
    "/opt/mkvcut/clip_010000_020000_1.mp4" = false.
Proof.
  pose (w := demo ["010000"; "020000"; ""; ""] Completed).
  assert (Hrun : In (Run (ffmpeg_cmd w "/videos/clip.mp4" 3600 7200
                            "/opt/mkvcut/clip_010000_020000_1.mp4")) (trace w))
    by (vm_compute; tauto).
  exact (proj2 (proj2 (proj2 (proj2 (run_on_checked_paths w _ Hrun))))).
Defined.

(* ================================================================= *)
(** ** The two input loops: retries *)

(** X11.  The start-time loop skips every line [parse_time] rejects,
    printing its error, and takes the first line it accepts: the text
    stripped and its value, leaving the lines after it unread.  If no line
    is accepted the loop ends at the end of the input. *)
Theorem start_loop_retries bad :
  Forall (fun l => exists e, parse_time (Str.strip l) = Raise e) bad ->
  (forall good v rest,
     parse_time (Str.strip good) = Ok v ->
     snd (start_loop (bad ++ good :: rest)) = Done (Str.strip good, v) rest /\
     List.length (fst (start_loop (bad ++ good :: rest)))
       = (2 * List.length bad + 1)%nat) /\
  (forall l e,
     In l bad -> parse_time (Str.strip l) = Raise e ->
     forall rest,
       In (Print ("Error: Invalid time format - " ++ message e))
          (fst (start_loop (bad ++ rest)))) /\
  snd (start_loop bad) = Stop (Uncaught "EOFError").
Proof.
  intros Hbad. split; [|split].
  - intros good v rest Hgood.
    induction Hbad as [|l bad [e He] _ IH]; simpl.
    + rewrite Hgood. pose proof (parse_time_range _ _ Hgood).
      destruct (Z.ltb_spec v 0); [lia|]. split; reflexivity.
    + rewrite He. simpl. destruct IH as [IH1 IH2]. split; [exact IH1|].
      rewrite IH2. lia.
  - intros l e Hin He rest.
    induction Hbad as [|l' bad [e' He'] _ IH]; [destruct Hin|].
    simpl. rewrite He'. simpl. destruct Hin as [->|Hin].
    + rewrite He in He'. injection He' as <-. right. now left.
    + right. right. now apply IH.
  - induction Hbad as [|l bad [e He] _ IH]; simpl; [reflexivity|].
    rewrite He. simpl. exact IH.
Qed.

Lemma start_loop_retries_witness :
  snd (start_loop (["12:30"; ""; "1234567"] ++ " 0130 " :: ["0200"]))
    = Done (Str.strip " 0130 ", 90) ["0200"].
Proof.
  apply (proj1 (start_loop_retries ["12:30"; ""; "1234567"]
                  ltac:(repeat constructor; eexists; reflexivity))).
  reflexivity.
Defined.

(** X12.  The end-time loop skips every line [parse_time] rejects and
    every time that is not after the start, and takes the first line whose
    value is greater than the start. *)
Theorem end_loop_retries start_time bad :
  Forall (fun l => match parse_time (Str.strip l) with
                   | Ok v => v <= start_time
                   | Raise _ => True
                   end) bad ->
  (forall good v rest,
     parse_time (Str.strip good) = Ok v -> start_time < v ->
     snd (end_loop start_time (bad ++ good :: rest))
       = Done (Str.strip good, v) rest) /\
  (forall l v,
     In l bad -> parse_time (Str.strip l) = Ok v ->
     forall rest,
       In (Print "Error: End time must be greater than start time")
          (fst (end_loop start_time (bad ++ rest)))) /\
  snd (end_loop start_time bad) = Stop (Uncaught "EOFError").
Proof.
  intros Hbad. split; [|split].
  - intros good v rest Hgood Hlt.
    induction Hbad as [|l bad Hl _ IH]; simpl.
    + rewrite Hgood. destruct (Z.leb_spec v start_time); [lia|]. reflexivity.
    + destruct (parse_time (Str.strip l)) as [x|e]; simpl; [|exact IH].
      destruct (Z.leb_spec x start_time); [|lia]. exact IH.
  - intros l v Hin Hv rest.
    induction Hbad as [|l' bad Hl _ IH]; [destruct Hin|].
    simpl. destruct Hin as [->|Hin].
    + rewrite Hv in *. simpl. destruct (Z.leb_spec v start_time); [|lia].
      right. now left.
    + destruct (parse_time (Str.strip l')) as [x|e]; simpl.
      * destruct (Z.leb_spec x start_time); [|lia]. right. right. now apply IH.
      * right. right. now apply IH.
  - induction Hbad as [|l bad Hl _ IH]; simpl; [reflexivity|].
    destruct (parse_time (Str.strip l)) as [x|e]; simpl; [|exact IH].
    destruct (Z.leb_spec x start_time); [|lia]. exact IH.
Qed.

Lemma end_loop_retries_witness :
  snd (end_loop 90 (["0130"; "45"; "x"] ++ "0131" :: []))
    = Done (Str.strip "0131", 91) [].
Proof.
  apply (proj1 (end_loop_retries 90 ["0130"; "45"; "x"]
                  ltac:(repeat constructor; vm_compute; discriminate)));
    [reflexivity | lia].
Defined.

(* ================================================================= *)
(** ** [main]: after the tool *)


Lemma run_job_other w job line rest name :
  confirmed line = true ->
  let cmd := ffmpeg_cmd w (input_path job) (start_time job) (end_time job)
               (output_path job) in
  run_tool w cmd = OtherException name ->
  run_job w job (line :: rest) =
    ([Input confirm_prompt (Some line);
      Print (nl ++ "Executing ffmpeg command (fast copy mode, no re-encoding)...");
      Print ("Command: " ++ Str.join " " cmd ++ nl);
      Run cmd],
     Stop (Uncaught name)).
Proof.
  intros H cmd Hc. run_job_unfold. rewrite H. fold cmd. rewrite Hc. reflexivity.
Qed.



(** X14.  [cut_video] catches two exceptions of [subprocess.run] and no
    other: any other one is left uncaught and ends the run right after the
    tool was started, without a diagnostic and without the final pause. *)
Theorem other_exception_uncaught w cmd name :
  In (Run cmd) (trace w) ->
  run_tool w cmd = OtherException name ->
  status w = Uncaught name /\
  exists before, trace w = (before ++ [Run cmd])%list.
Proof.
  intros Hrun Ho.
  destruct (main_run _ _ Hrun) as (t & job & line & rest & Hg & Hc & Hcmd & Hm).
  pose proof (run_job_other w job line rest name Hc) as Hj. cbv zeta in Hj.
  rewrite <- Hcmd in Hj. specialize (Hj Ho).
  unfold trace, status. rewrite Hm, Hj. cbn [fst snd final].
  split; [reflexivity|].
  exists (t ++ [Input confirm_prompt (Some line);
                Print (nl ++ "Executing ffmpeg command (fast copy mode, no re-encoding)...");
                Print ("Command: " ++ Str.join " " cmd ++ nl)])%list.
  now rewrite <- app_assoc.
Qed.

Lemma other_exception_uncaught_witness :
  status (demo ["45"; "0130"; ""; ""] (OtherException "PermissionError"))
    = Uncaught "PermissionError".
Proof.
  pose (w := demo ["45"; "0130"; ""; ""] (OtherException "PermissionError")).
  assert (Hrun : In (Run (ffmpeg_cmd w "/videos/clip.mp4" 45 90
                            "/opt/mkvcut/clip_45_0130.mp4")) (trace w))
    by (vm_compute; tauto).
  exact (proj1 (other_exception_uncaught w _ "PermissionError" Hrun eq_refl)).
Defined.

(* ================================================================= *)
(** ** [main]: what is shown is what is run *)

(** The summary of lines 147-149. *)
Lemma gather_summary w i t job rest :
  gather w i = (t, Done job rest) ->
  In (Print (nl ++ "Start time: " ++ format_time (PyInt (start_time job)))) t /\
  In (Print ("End time: " ++ format_time (PyInt (end_time job)))) t /\
  In (Print ("Duration: "
             ++ format_time (PyInt (end_time job - start_time job)))) t.
Proof.
  intros H. pose proof (gather_done_valid _ _ _ _ _ H) as Hv.
  unfold valid_invocation in Hv.
  apply andb_true_iff in Hv. destruct Hv as [Hv Hf].
  apply andb_true_iff in Hv. destruct Hv as [Hl He].
  apply Nat.leb_le in Hl.
  unfold gather in H.
  destruct (Nat.ltb_spec (List.length (argv w)) 2); [lia|].
  rewrite He, Hf in H. cbn [negb] in H.
  apply bind_done in H. destruct H as (t1 & [] & i1 & t1' & _ & H & ->).
  apply bind_done in H. destruct H as (t2 & [] & i2 & t2' & _ & H & ->).
  apply bind_done in H. destruct H as (t3 & [si st] & i3 & t3' & _ & H & ->).
  apply bind_done in H. destruct H as (t4 & [ei et] & i4 & t4' & _ & H & ->).
  apply bind_done in H. destruct H as (t5 & [] & i5 & t5' & H5 & H & ->).
  apply bind_done in H. destruct H as (t6 & [] & i6 & t6' & H6 & H & ->).
  apply bind_done in H. destruct H as (t7 & [] & i7 & t7' & H7 & H & ->).
  injection H5 as <- _. injection H6 as <- _. injection H7 as <- _.
  destruct (resolve_output _ _ _ _ _) as [out|]; [|discriminate H].
  apply bind_done in H. destruct H as (t8 & [] & i8 & t8' & _ & H & ->).
  injection H as _ <- _.
  cbn [start_time end_time].
  repeat split; rewrite !in_app_iff; cbn [In]; tauto.
Qed.

(** After a yes the command line is printed. *)
Lemma run_job_command w job line rest :
  confirmed line = true ->
  In (Print ("Command: "
             ++ Str.join " " (ffmpeg_cmd w (input_path job) (start_time job)
                                (end_time job) (output_path job)) ++ nl))
     (fst (run_job w job (line :: rest))).
Proof.
  intros Hc. run_job_unfold. rewrite Hc.
  set (c := ffmpeg_cmd _ _ _ _ _).
  destruct (run_tool w c); [destruct (stat_after w (output_path job))| | |];
    destruct rest; cbn [In fst]; tauto.
Qed.

(** X15.  What the user is shown before confirming is what the tool is
    given: the start time and the duration of the summary are the [-ss] and
    [-t] arguments, the output file announced is the output argument, and
    the command line printed is the one run. *)
Theorem summary_matches_command w cmd :
  In (Run cmd) (trace w) ->
  In (Print (nl ++ "Start time: " ++ nth 2 cmd "")) (trace w) /\
  In (Print ("Duration: " ++ nth 6 cmd "")) (trace w) /\
  In (Print ("Output file: " ++ nth 13 cmd "" ++ nl)) (trace w) /\
  In (Print ("Command: " ++ Str.join " " cmd ++ nl)) (trace w).
Proof.
  intros Hrun.
  destruct (main_run _ _ Hrun) as (t & job & line & rest & Hg & Hc & Hcmd & Hm).
  destruct (gather_summary _ _ _ _ _ Hg) as (Hs & _ & Hd).
  destruct (gather_done _ _ _ _ _ Hg)
    as (? & ? & ? & _ & _ & _ & _ & _ & _ & _ & _ & _ & _ & Ho).
  pose proof (run_job_command w job line rest Hc) as Hp.
  unfold trace. rewrite Hm. cbn [fst]. rewrite !in_app_iff, Hcmd.
  cbn [ffmpeg_cmd nth]. tauto.
Qed.

Lemma summary_matches_command_witness :
  In (Print ("Duration: " ++ "00:00:45.000"))
     (trace (demo ["45"; "0130"; ""; ""] Completed)).
Proof.
  pose (w := demo ["45"; "0130"; ""; ""] Completed).
  assert (Hrun : In (Run (ffmpeg_cmd w "/videos/clip.mp4" 45 90
                            "/opt/mkvcut/clip_45_0130.mp4")) (trace w))
    by (vm_compute; tauto).
  exact (proj1 (proj2 (summary_matches_command w _ Hrun))).
Defined.

(* ================================================================= *)
(** ** Cancelling, and the choice of the executable *)

(** X16.  A cancelled run ends at once: "Operation cancelled." is the last
    thing it does, the final pause is not reached. *)
Theorem cancel_skips_pause w line :
  In (Input confirm_prompt (Some line)) (trace w) ->
  confirmed line = false ->
  exists before,
    trace w =
      (before ++ [Input confirm_prompt (Some line); Print "Operation cancelled."])%list /\
    Forall gather_event before.
Proof.
  intros H Hc. unfold trace in *.
  pose proof (gather_events w (stdin w)) as Hev.
  destruct (main_cases w) as [(t & s & Hg & Hm)|(t & job & i & Hg & Hm)];
    rewrite Hm in *; rewrite Hg in Hev; cbn [fst] in *.
  - rewrite Forall_forall in Hev. destruct (Hev _ H). reflexivity.
  - apply in_app_or in H. destruct H as [H|H].
    { rewrite Forall_forall in Hev. destruct (Hev _ H). reflexivity. }
    destruct (run_job_answer _ _ _ _ H) as (rest & ->).
    rewrite (run_job_cancel _ _ _ _ Hc). cbn [fst]. now exists t.
Qed.

Lemma cancel_skips_pause_witness :
  exists before,
    trace (demo ["45"; "0130"; "no"; ""] Completed) =
      (before ++ [Input confirm_prompt (Some "no"); Print "Operation cancelled."])%list /\
    Forall gather_event before.
Proof.
  apply (cancel_skips_pause (demo ["45"; "0130"; "no"; ""] Completed) "no").
  - vm_compute. tauto.
  - reflexivity.
Defined.

(** X18.  The executable is the [ffmpeg.exe] next to the program exactly
    when that file exists; otherwise it is the bare name [ffmpeg], left to
    the search path.  Every tool a run starts is chosen this way. *)
Theorem local_ffmpeg_preferred w :
  (ffmpeg_exe w = base_path w ++ sep w ++ "ffmpeg.exe" <->
   path_exists w (base_path w ++ sep w ++ "ffmpeg.exe") = true) /\
  (ffmpeg_exe w = "ffmpeg" <->
   path_exists w (base_path w ++ sep w ++ "ffmpeg.exe") = false) /\
  (forall cmd, In (Run cmd) (trace w) -> nth 0 cmd "" = ffmpeg_exe w).
Proof.
  assert (Hne : base_path w ++ sep w ++ "ffmpeg.exe" <> "ffmpeg").
  { intros H. apply (f_equal length) in H.
    rewrite !length_append in H. simpl in H. lia. }
  unfold ffmpeg_exe, joinpath, get_base_path.
  destruct (path_exists w (base_path w ++ sep w ++ "ffmpeg.exe")) eqn:E.
  - split; [tauto|]. split.
    + split; [intros H; now apply Hne in H | discriminate].
    + intros cmd Hrun.
      destruct (main_run _ _ Hrun) as (t & job & line & rest & _ & _ & -> & _).
      cbn [ffmpeg_cmd nth]. unfold ffmpeg_exe, joinpath, get_base_path.
      now rewrite E.
  - split; [split; [intros H; symmetry in H; now apply Hne in H | discriminate]|].
    split; [tauto|].
    intros cmd Hrun.
    destruct (main_run _ _ Hrun) as (t & job & line & rest & _ & _ & -> & _).
    cbn [ffmpeg_cmd nth]. unfold ffmpeg_exe, joinpath, get_base_path.
    now rewrite E.
Qed.
